(** * IPTV subscriber store and Xtream-Codes front end

    A shallow embedding of [src/core/database.py] (class [IPTVDatabase]) and
    of [src/core/server.py] (class [XtreamCodesServer]), followed by the
    properties of the control plane that the specification lists.

    Conventions of the embedding.
    - A table is the list of its rows in rowid order; a row is a record whose
      fields carry the column names.  A nullable column is an [option].
    - An SQL statement is a pure function on the store; a method is a
      computation in the monad [M], which threads the store together with the
      state of the instance's [threading.Lock] and records how the call ends:
      it returns, it raises, or it blocks for ever on the lock.
    - Clock readings ([datetime.now()], [CURRENT_TIMESTAMP]) are arguments.
      A time stamp that the code compares is a number of seconds; one that is
      only printed is the printed text.
    - [hashlib] digests and [str(datetime)] are library functions: they are
      variables of the sections that use them. *)

From Stdlib Require Import ZArith List String Ascii Bool Lia Permutation Sorted.
From stdpp Require Import gmap strings pretty.
Import ListNotations.

Open Scope string_scope.
Open Scope list_scope.
Open Scope Z_scope.

Set Default Proof Using "Type".

(** ** Python values *)

(** [str(x)] inside an f-string for a value that may be [None]. *)
Definition pystr (x : option string) : string :=
  match x with
  | Some s => s
  | None => "None"
  end.

(** [x or d] for an integer that may be [None]: [None] and [0] are falsy. *)
Definition int_or (x : option Z) (d : Z) : Z :=
  match x with
  | Some n => if n =? 0 then d else n
  | None => d
  end.

(** [x or d] for a string that may be [None]: [None] and the empty string are
    falsy. *)
Definition str_or (x : option string) (d : string) : string :=
  match x with
  | Some EmptyString => d
  | Some s => s
  | None => d
  end.

(** Equality of two Python values of type [Optional[str]]. *)
Definition opt_str_eqb (a b : option string) : bool :=
  match a, b with
  | Some x, Some y => String.eqb x y
  | None, None => true
  | _, _ => false
  end.

(** SQL [a = b] in a [WHERE] clause: a comparison with [NULL] is never true. *)
Definition sql_eq_int (a b : option Z) : bool :=
  match a, b with
  | Some x, Some y => x =? y
  | _, _ => false
  end.

Definition sql_eq_str (a b : option string) : bool :=
  match a, b with
  | Some x, Some y => String.eqb x y
  | _, _ => false
  end.

(** ** The tables of [init_database] *)

Module User.
(** Table [users].  The columns [credits] and [settings] are left out: no
    statement of the methods below reads or writes them. *)
Record row := mk {
  id : Z;
  username : string;
  password : string;
  email : option string;
  role : string;
  is_active : Z;
  max_connections : option Z;
  created_at : Z;
  expires_at : option Z;
  last_login : option Z;
  total_streams : Z;
  api_key : option string
}.

Definition set_last_login (t : Z) (u : row) : row :=
  mk (id u) (username u) (password u) (email u) (role u) (is_active u)
     (max_connections u) (created_at u) (expires_at u) (Some t)
     (total_streams u) (api_key u).
End User.

Module Session.
(** Table [active_sessions]; [session_id] is its primary key. *)
Record row := mk {
  session_id : string;
  user_id : Z;
  stream_id : option Z;
  client_ip : option string;
  user_agent : option string;
  start_time : Z;
  last_active : Z;
  is_active : Z;
  bytes_sent : Z
}.

Definition touch (t delta : Z) (s : row) : row :=
  mk (session_id s) (user_id s) (stream_id s) (client_ip s) (user_agent s)
     (start_time s) t (is_active s) (bytes_sent s + delta).

Definition deactivate (s : row) : row :=
  mk (session_id s) (user_id s) (stream_id s) (client_ip s) (user_agent s)
     (start_time s) (last_active s) 0 (bytes_sent s).
End Session.

Module Stat.
(** Table [statistics]; [average_bitrate] is never written and is left
    out. *)
Record row := mk {
  stat_id : Z;
  stat_date : string;
  user_id : option Z;
  stream_id : option Z;
  total_views : Z;
  total_bytes : Z;
  peak_viewers : Z
}.

Definition merge (viewers bytes : Z) (r : row) : row :=
  mk (stat_id r) (stat_date r) (user_id r) (stream_id r)
     (total_views r + viewers) (total_bytes r + bytes)
     (if peak_viewers r <? viewers then viewers else peak_viewers r).
End Stat.

Module Stream.
(** Table [live_streams], the columns that the playlist query returns and
    the generator reads. *)
Record row := mk {
  stream_id : Z;
  stream_name : string;
  stream_url : string;
  category_id : option Z;
  category_name : option string;
  stream_icon : option string;
  epg_channel_id : option string;
  is_active : Z;
  user_id : option Z;
  proxy_url : option string
}.
End Stream.

Module Category.
(** Table [categories]; [category_id] is its primary key. *)
Record row := mk {
  category_id : Z;
  category_name : string;
  parent_id : Z;
  category_type : string;
  is_active : Z;
  user_id : option Z;
  sort_order : Z
}.
End Category.

Module LogEntry.
(** Table [logs]. *)
Record row := mk {
  log_date : Z;
  log_level : string;
  user_id : option Z;
  action : string;
  details : string
}.
End LogEntry.

(** The database file.  [users_seq] and [statistics_seq] are the
    [sqlite_sequence] counters of the two [AUTOINCREMENT] keys the methods
    read back. *)
Record DB := mkDB {
  users : list User.row;
  users_seq : Z;
  active_sessions : list Session.row;
  statistics : list Stat.row;
  statistics_seq : Z;
  live_streams : list Stream.row;
  categories : list Category.row;
  logs : list LogEntry.row
}.

Definition empty_db : DB := mkDB [] 0 [] [] 0 [] [] [].

Definition with_users (us : list User.row) (seq : Z) (db : DB) : DB :=
  mkDB us seq (active_sessions db) (statistics db) (statistics_seq db)
       (live_streams db) (categories db) (logs db).

Definition with_sessions (ss : list Session.row) (db : DB) : DB :=
  mkDB (users db) (users_seq db) ss (statistics db) (statistics_seq db)
       (live_streams db) (categories db) (logs db).

Definition with_statistics (rs : list Stat.row) (seq : Z) (db : DB) : DB :=
  mkDB (users db) (users_seq db) (active_sessions db) rs seq
       (live_streams db) (categories db) (logs db).

Definition with_logs (ls : list LogEntry.row) (db : DB) : DB :=
  mkDB (users db) (users_seq db) (active_sessions db) (statistics db)
       (statistics_seq db) (live_streams db) (categories db) ls.

(** ** Method calls: the lock and the three ways a call ends *)

(** What one [IPTVDatabase] object sees: the database file and its own
    [self.lock]. *)
Record Inst := mkInst {
  store : DB;
  lock_held : bool
}.

Inductive Exn :=
| IntegrityError
| TypeError.

(** [Blocked]: the calling thread waits on [self.lock] for ever. *)
Inductive Outcome (A : Type) :=
| Returned (v : A) (s : Inst)
| Raised (e : Exn) (s : Inst)
| Blocked (s : Inst).
Arguments Returned {A} v s.
Arguments Raised {A} e s.
Arguments Blocked {A} s.

Definition final {A} (o : Outcome A) : Inst :=
  match o with
  | Returned _ s => s
  | Raised _ s => s
  | Blocked s => s
  end.

Definition M (A : Type) : Type := Inst -> Outcome A.

Definition ret {A} (v : A) : M A := fun s => Returned v s.

Definition bind {A B} (m : M A) (k : A -> M B) : M B :=
  fun s =>
    match m s with
    | Returned v s' => k v s'
    | Raised e s' => Raised e s'
    | Blocked s' => Blocked s'
    end.

Definition raise {A} (e : Exn) : M A := fun s => Raised e s.

Definition read_store : M DB := fun s => Returned (store s) s.

Definition write_store (db : DB) : M unit :=
  fun s => Returned tt (mkInst db (lock_held s)).

#[global] Instance M_ret : MRet M := @ret.
#[global] Instance M_bind : MBind M := fun A B k m => bind m k.

(** [with self.lock: body].  [threading.Lock] is not re-entrant: acquiring it
    while it is held blocks, also when the holder is the calling thread
    itself.  The lock is released when the body returns or raises. *)
Definition with_lock {A} (body : M A) : M A :=
  fun s =>
    if lock_held s then Blocked s
    else
      match body (mkInst (store s) true) with
      | Returned v s' => Returned v (mkInst (store s') false)
      | Raised e s' => Raised e (mkInst (store s') false)
      | Blocked s' => Blocked s'
      end.

(** [log_action]: one [INSERT INTO logs] in a lock section of its own. *)
Definition insert_log (now : Z) (user_id : option Z) (action details : string)
    (db : DB) : DB :=
  with_logs (logs db ++ [LogEntry.mk now "info" user_id action details]) db.

Definition log_action (now : Z) (user_id : option Z) (action details : string)
    : M unit :=
  with_lock (db ← read_store; write_store (insert_log now user_id action details db)).

(** ** [IPTVDatabase]: users and sessions *)

Section Database.

(** [hashlib.sha256(s.encode()).hexdigest()] and [str(datetime.now())]. *)
Variable sha256_hex : string -> string.
Variable str_datetime : Z -> string.

(** *** User management *)

(** The [UNIQUE] constraints of [users] that an insert can violate. *)
Definition users_conflict (username : string) (api_key : string) (db : DB) : bool :=
  existsb (fun u => String.eqb (User.username u) username
                    || sql_eq_str (User.api_key u) (Some api_key))
          (users db).

Definition insert_user (now : Z) (username hashed_password : string)
    (email : option string) (role : string) (max_connections : Z)
    (api_key : string) (db : DB) : DB :=
  let user_id := users_seq db + 1 in
  with_users
    (users db ++ [User.mk user_id username hashed_password email role 1
                    (Some max_connections) now None None 0 (Some api_key)])
    user_id db.

Definition create_user (now : Z) (username password : string)
    (email : option string) (role : string) (max_connections : Z) : M Z :=
  with_lock (
    let hashed_password := sha256_hex password in
    let api_key := sha256_hex (username +:+ str_datetime now) in
    db ← read_store;
    if users_conflict username api_key db then raise IntegrityError
    else
      write_store (insert_user now username hashed_password email role
                     max_connections api_key db);;
      let user_id := users_seq db + 1 in
      log_action now (Some user_id) "user_created" ("Created user: " +:+ username);;
      mret user_id).

(** [SELECT * FROM users WHERE username = ? AND password = ? AND is_active = 1],
    then [fetchone]. *)
Definition select_credentials (username hashed_password : string) (db : DB)
    : option User.row :=
  find (fun u => String.eqb (User.username u) username
                 && String.eqb (User.password u) hashed_password
                 && (User.is_active u =? 1))
       (users db).

(** [UPDATE users SET last_login = CURRENT_TIMESTAMP WHERE id = ?]. *)
Definition update_last_login (now : Z) (user_id : Z) (db : DB) : DB :=
  with_users
    (map (fun u => if User.id u =? user_id then User.set_last_login now u else u)
         (users db))
    (users_seq db) db.

Definition authenticate_user (now : Z) (username password : string)
    : M (option User.row) :=
  with_lock (
    let hashed_password := sha256_hex password in
    db ← read_store;
    match select_credentials username hashed_password db with
    | Some user =>
        write_store (update_last_login now (User.id user) db);;
        log_action now (Some (User.id user)) "user_login" "User logged in";;
        mret (Some user)
    | None => mret None
    end).

(** *** Session management *)

(** [hashlib.sha256(f"{user_id}{datetime.now()}{client_ip}".encode()).hexdigest()[:32]]. *)
Definition new_session_id (now : Z) (user_id : Z) (client_ip : option string)
    : string :=
  substring 0 32
    (sha256_hex (pretty user_id +:+ str_datetime now +:+ pystr client_ip)).

Definition session_exists (session_id : string) (db : DB) : bool :=
  existsb (fun s => String.eqb (Session.session_id s) session_id)
          (active_sessions db).

(** The insert of [create_session]; the columns it does not list take their
    defaults: both time stamps the current time, [is_active] 1 and
    [bytes_sent] 0. *)
Definition insert_session (now : Z) (session_id : string) (user_id : Z)
    (stream_id : option Z) (client_ip user_agent : option string) (db : DB) : DB :=
  with_sessions
    (active_sessions db ++
       [Session.mk session_id user_id stream_id client_ip user_agent now now 1 0])
    db.

Definition create_session (now : Z) (user_id : Z) (stream_id : option Z)
    (client_ip user_agent : option string) : M string :=
  with_lock (
    let session_id := new_session_id now user_id client_ip in
    db ← read_store;
    if session_exists session_id db then raise IntegrityError
    else
      write_store (insert_session now session_id user_id stream_id client_ip
                     user_agent db);;
      log_action now (Some user_id) "session_created" "New session created";;
      mret session_id).

(** The [UPDATE] of [update_session], guarded by [is_active = 1]. *)
Definition touch_session (now : Z) (session_id : string) (bytes_sent : Z)
    (db : DB) : DB :=
  with_sessions
    (map (fun s => if String.eqb (Session.session_id s) session_id
                      && (Session.is_active s =? 1)
                   then Session.touch now bytes_sent s else s)
         (active_sessions db))
    db.

Definition update_session (now : Z) (session_id : string) (bytes_sent : Z)
    : M unit :=
  with_lock (db ← read_store; write_store (touch_session now session_id bytes_sent db)).

(** [SELECT COUNT( * ) FROM active_sessions WHERE user_id = ? AND is_active = 1]. *)
Definition count_active (user_id : Z) (db : DB) : Z :=
  Z.of_nat (length (List.filter
    (fun s => (Session.user_id s =? user_id) && (Session.is_active s =? 1))
    (active_sessions db))).

(** [SELECT max_connections FROM users WHERE id = ?], then [fetchone]. *)
Definition select_max_connections (user_id : Z) (db : DB)
    : option (option Z) :=
  option_map User.max_connections
    (find (fun u => User.id u =? user_id) (users db)).

(** Subscripting the [None] that [fetchone] gives for an unknown user raises
    [TypeError]. *)
Definition check_user_connections (user_id : Z) : M (Z * Z) :=
  with_lock (
    db ← read_store;
    let active_connections := count_active user_id db in
    match select_max_connections user_id db with
    | Some m => mret (active_connections, int_or m 1)
    | None => raise TypeError
    end).

(** The two statements of [cleanup_old_data]; the cutoff is [days] days
    before now. *)
Definition expire_sessions (cutoff : Z) (db : DB) : DB :=
  with_sessions
    (map (fun s => if Session.last_active s <? cutoff
                   then Session.deactivate s else s)
         (active_sessions db))
    db.

Definition delete_old_logs (cutoff : Z) (db : DB) : DB :=
  with_logs
    (List.filter (fun l => negb ((LogEntry.log_date l <? cutoff)
                                 && negb (String.eqb (LogEntry.log_level l) "error")))
                 (logs db))
    db.

Definition cleanup_old_data (now : Z) (days : Z) : M unit :=
  with_lock (
    let cutoff_date := now - days * 86400 in
    db ← read_store;
    write_store (delete_old_logs cutoff_date (expire_sessions cutoff_date db));;
    log_action now None "cleanup"
      ("Cleaned up data older than " +:+ pretty days +:+ " days")).

(** The two [INSERT OR IGNORE INTO users] of [add_default_data]: the
    administrator and the demonstration account, which expires thirty days
    after the database was initialised.  A row whose user name is taken is
    skipped. *)
Definition insert_or_ignore_user (u : User.row) (db : DB) : DB :=
  if existsb (fun v => String.eqb (User.username v) (User.username u)) (users db)
  then db
  else with_users (users db ++ [u]) (User.id u) db.

Definition add_default_users (now : Z) (db : DB) : DB :=
  let db :=
    insert_or_ignore_user
      (User.mk (users_seq db + 1) "admin" (sha256_hex "admin123")
         (Some "admin@iptv.com") "admin" 1 (Some 10) now None None 0 None) db in
  insert_or_ignore_user
    (User.mk (users_seq db + 1) "demo" (sha256_hex "demo123")
       (Some "demo@iptv.com") "user" 1 (Some 1) now (Some (now + 30 * 86400))
       None 0 None) db.

End Database.

(** ** [IPTVDatabase]: statistics *)

(** [SELECT stat_id FROM statistics WHERE stat_date = ? AND user_id = ? AND
    stream_id = ?], then [fetchone].  The two ids are bound as they were
    passed, [None] as [NULL]. *)
Definition select_statistic (today : string) (user_id stream_id : option Z)
    (db : DB) : option Z :=
  option_map Stat.stat_id
    (find (fun r => String.eqb (Stat.stat_date r) today
                    && sql_eq_int (Stat.user_id r) user_id
                    && sql_eq_int (Stat.stream_id r) stream_id)
          (statistics db)).

(** The [UPDATE] branch: sums for views and bytes, [CASE WHEN ? > peak_viewers]
    for the peak. *)
Definition update_statistic (stat_id viewers bytes_sent : Z) (db : DB) : DB :=
  with_statistics
    (map (fun r => if Stat.stat_id r =? stat_id
                   then Stat.merge viewers bytes_sent r else r)
         (statistics db))
    (statistics_seq db) db.

(** The [INSERT] branch. *)
Definition insert_statistic (today : string) (user_id stream_id : option Z)
    (viewers bytes_sent : Z) (db : DB) : DB :=
  let stat_id := statistics_seq db + 1 in
  with_statistics
    (statistics db ++
       [Stat.mk stat_id today user_id stream_id viewers bytes_sent viewers])
    stat_id db.

(** [today] is [datetime.now().strftime('%Y-%m-%d')]. *)
Definition add_statistic (today : string) (user_id stream_id : option Z)
    (bytes_sent viewers : Z) : M unit :=
  with_lock (
    db ← read_store;
    match select_statistic today user_id stream_id db with
    | Some existing => write_store (update_statistic existing viewers bytes_sent db)
    | None => write_store (insert_statistic today user_id stream_id viewers bytes_sent db)
    end).

(** ** [IPTVDatabase]: the M3U playlist *)

Definition nl : string := String "010"%char EmptyString.
Definition dq : string := String "034"%char EmptyString.

(** [c.category_name] of the [LEFT JOIN categories c]: [NULL] when the stream
    has no category or the category row is missing. *)
Definition joined_category_name (db : DB) (s : Stream.row) : option string :=
  match Stream.category_id s with
  | Some cid =>
      option_map Category.category_name
        (find (fun c => Category.category_id c =? cid) (categories db))
  | None => None
  end.

(** SQLite's order on a nullable text column: [NULL] first, then the bytes. *)
Definition compare_nullable (a b : option string) : comparison :=
  match a, b with
  | None, None => Eq
  | None, Some _ => Lt
  | Some _, None => Gt
  | Some x, Some y => String.compare x y
  end.

(** [ORDER BY c.category_name, ls.stream_name]. *)
Definition playlist_order (db : DB) (s t : Stream.row) : bool :=
  match compare_nullable (joined_category_name db s) (joined_category_name db t) with
  | Lt => true
  | Gt => false
  | Eq => String.leb (Stream.stream_name s) (Stream.stream_name t)
  end.

Fixpoint insert_by {A} (le : A -> A -> bool) (x : A) (l : list A) : list A :=
  match l with
  | [] => [x]
  | y :: l' => if le x y then x :: l else y :: insert_by le x l'
  end.

(** A stable sort: rows with equal keys stay in rowid order. *)
Fixpoint order_by {A} (le : A -> A -> bool) (l : list A) : list A :=
  match l with
  | [] => []
  | x :: l' => insert_by le x (order_by le l')
  end.

Definition owned_active (user_id : Z) (s : Stream.row) : bool :=
  sql_eq_int (Stream.user_id s) (Some user_id) && (Stream.is_active s =? 1).

(** The query of [generate_m3u_playlist].  Each result row has two columns
    called [category_name]: the one of [ls.*] and [c.category_name].
    [dict(stream)] keeps, under that key, what [sqlite3.Row] returns for the
    name, which is the first of the two: the column of [live_streams].  So the
    joined name orders the rows and the loop reads [Stream.category_name]. *)
Definition select_playlist (user_id : Z) (db : DB) : list Stream.row :=
  order_by (playlist_order db) (List.filter (owned_active user_id) (live_streams db)).

(** One iteration of the loop over [streams]; the state is [m3u_content] and
    [current_category]. *)
Definition playlist_step (output_format : string)
    (acc : string * option string) (stream : Stream.row) : string * option string :=
  let '(m3u_content, current_category) := acc in
  let category_name := Stream.category_name stream in
  let '(m3u_content, current_category) :=
    if negb (opt_str_eqb category_name current_category) then
      (m3u_content
         +:+ (nl +:+ "#EXTINF:-1 group-title=" +:+ dq +:+ pystr category_name
                 +:+ dq +:+ "," +:+ pystr category_name +:+ nl)
         +:+ ("#EXTVLCOPT:network-caching=1000" +:+ nl),
       category_name)
    else (m3u_content, current_category) in
  let m3u_content :=
    m3u_content
      +:+ ("#EXTINF:-1 tvg-id=" +:+ dq
             +:+ str_or (Stream.epg_channel_id stream) (Stream.stream_name stream)
             +:+ dq +:+ " ")
      +:+ ("tvg-name=" +:+ dq +:+ Stream.stream_name stream +:+ dq +:+ " ")
      +:+ ("tvg-logo=" +:+ dq +:+ pystr (Stream.stream_icon stream) +:+ dq +:+ " ")
      +:+ ("group-title=" +:+ dq +:+ pystr category_name +:+ dq +:+ ","
             +:+ Stream.stream_name stream +:+ nl) in
  let m3u_content :=
    if String.eqb output_format "ts"
    then m3u_content +:+ (pystr (Stream.proxy_url stream) +:+ nl)
    else m3u_content +:+ (Stream.stream_url stream +:+ nl) in
  (m3u_content, current_category).

Definition playlist_header (generated : string) (user_id : Z) : string :=
  ("#EXTM3U" +:+ nl)
    +:+ ("# Generated: " +:+ generated +:+ nl)
    +:+ ("# User ID: " +:+ pretty user_id +:+ nl +:+ nl).

(** [generated] is [datetime.now().strftime('%Y-%m-%d %H:%M:%S')]. *)
Definition generate_m3u_playlist (generated : string) (user_id : Z)
    (output_format : string) : M string :=
  with_lock (
    db ← read_store;
    let streams := select_playlist user_id db in
    mret (fst (fold_left (playlist_step output_format) streams
                 (playlist_header generated user_id, Some EmptyString)))).

(** ** Several [IPTVDatabase] objects on one database file *)

(** Every object has a lock of its own; the file is shared.  [held] is the set
    of the objects whose lock is held: a held lock stays held, because the
    thread that holds it is blocked inside the lock section. *)
Record World := mkWorld {
  file : DB;
  held : gset nat
}.

Definition view (i : nat) (w : World) : Inst :=
  mkInst (file w) (bool_decide (i ∈ held w)).

Definition leave (i : nat) (s : Inst) (w : World) : World :=
  mkWorld (store s) (if lock_held s then {[i]} ∪ held w else held w ∖ {[i]}).

(** A method call on object [i]. *)
Definition call_on {A} (i : nat) (m : M A) (w : World) : Outcome A * World :=
  let o := m (view i w) in (o, leave i (final o) w).

(** ** [XtreamCodesServer] *)

Module XtreamCodesServer.

(** A row of [users_xtream], in column order: the code reads it as a tuple.
    [username] and [password] are nullable in the schema; a row in which one
    of them is [NULL] matches neither query below, so the model leaves such
    rows out. *)
Record user_row := mk_user {
  id : Z;
  username : string;
  password : string;
  is_active : Z;
  max_connections : option Z;
  created_at : option string;
  expires_at : option string;
  total_streams : Z
}.

Record category_row := mk_category {
  category_id : Z;
  category_name : option string;
  parent_id : Z
}.

Record XDB := mkXDB {
  users_xtream : list user_row;
  categories_xtream : list category_row
}.

#[local] Unset Elimination Schemes.
Inductive json :=
| JNull
| JInt (n : Z)
| JStr (s : string)
| JArr (items : list json)
| JObj (fields : list (string * json)).
#[local] Set Elimination Schemes.

Definition opt_str_json (x : option string) : json :=
  match x with Some s => JStr s | None => JNull end.

Definition opt_int_json (x : option Z) : json :=
  match x with Some n => JInt n | None => JNull end.

Inductive error :=
| AttributeError (name : string)
| IndexError.

(** What a handler produces: the value passed to [json.dumps(...).encode()],
    or the exception it raises. *)
Definition result := (json + error)%type.

(** [{"user_info": {"auth": 0}}]. *)
Definition negative_envelope : json :=
  JObj [("user_info", JObj [("auth", JInt 0)])].

Section Server.

(** [hashlib.md5(s.encode()).hexdigest()]. *)
Variable md5_hex : string -> string.

Definition authenticate_user (db : XDB) (username password : string)
    : option user_row :=
  let hashed_pass := md5_hex password in
  find (fun u => String.eqb (XtreamCodesServer.username u) username
                 && String.eqb (XtreamCodesServer.password u) hashed_pass
                 && (is_active u =? 1))
       (users_xtream db).

(** The object [get_user_info] builds for the row it found. *)
Definition user_info_response (user : user_row) : json :=
  JObj [("user_info", JObj [
    ("username", JStr (XtreamCodesServer.username user));
    ("password", JStr "********");
    ("message", JStr "Authorized");
    ("auth", JInt 1);
    ("status", JStr "Active");
    ("exp_date", JStr (str_or (expires_at user) "2099-12-31"));
    ("is_trial", JInt 0);
    ("active_cons", JInt 0);
    ("created_at", opt_str_json (created_at user));
    ("max_connections", opt_int_json (max_connections user));
    ("allowed_output_formats", JArr [JStr "m3u8"; JStr "ts"; JStr "rtmp"])])].

Definition get_user_info (db : XDB) (username : string) : json :=
  match find (fun u => String.eqb (XtreamCodesServer.username u) username)
             (users_xtream db) with
  | Some user => user_info_response user
  | None => negative_envelope
  end.

Definition get_live_categories (db : XDB) : json :=
  JObj [("categories",
         JArr (map (fun c => JObj [("category_id", JInt (category_id c));
                                   ("category_name", opt_str_json (category_name c));
                                   ("parent_id", JInt 1)])
                   (List.filter (fun c => parent_id c =? 1) (categories_xtream db))))].

(** [params.get(key, [''])[0]] on the dictionary [parse_qs] returns. *)
Definition first_param (params : gmap string (list string)) (key : string)
    : option string :=
  head (default [EmptyString] (params !! key)).

(** [handle_api_request], from the parsed query string on.  The class defines
    [get_live_categories] only: looking up one of the other three handlers
    raises [AttributeError]. *)
Definition handle_api_request (db : XDB) (params : gmap string (list string))
    : result :=
  match first_param params "action", first_param params "username",
        first_param params "password" with
  | Some action, Some username, Some password =>
      match authenticate_user db username password with
      | None => inl negative_envelope
      | Some _ =>
          if String.eqb action "get_live_categories" then
            inl (get_live_categories db)
          else if String.eqb action "get_live_streams" then
            match first_param params "category_id" with
            | Some _ => inr (AttributeError "get_live_streams")
            | None => inr IndexError
            end
          else if String.eqb action "get_vod_categories" then
            inr (AttributeError "get_vod_categories")
          else if String.eqb action "get_vod_streams" then
            match first_param params "category_id" with
            | Some _ => inr (AttributeError "get_vod_streams")
            | None => inr IndexError
            end
          else inl (get_user_info db username)
      end
  | _, _, _ => inr IndexError
  end.

(** The default account of [add_default_data]: [INSERT OR IGNORE INTO
    users_xtream (username, password)], the other columns at their defaults.
    [created] is the text of [CURRENT_TIMESTAMP]. *)
Definition add_default_user (created : string) (db : XDB) : XDB :=
  if existsb (fun u => String.eqb (XtreamCodesServer.username u) "demo")
             (users_xtream db)
  then db
  else
    mkXDB (users_xtream db ++
             [mk_user (fold_right Z.max 0 (map id (users_xtream db)) + 1)
                "demo" (md5_hex "demo") 1 (Some 1) (Some created) None 0])
          (categories_xtream db).

End Server.

End XtreamCodesServer.

(** ** Examples: a stand-in digest and small stores *)

(** The theorems below hold for every digest function; the examples need one
    that computes. *)
Definition demo_digest (s : string) : string := "digest:" +:+ s.
Definition demo_datetime (t : Z) : string := "@" +:+ pretty t.

(** An account of [users_xtream] with an expiry date long past. *)
Definition expired_xdb : XtreamCodesServer.XDB :=
  XtreamCodesServer.mkXDB
    [XtreamCodesServer.mk_user 1 "demo" (demo_digest "demo") 1 (Some 1)
       (Some "2023-01-01 00:00:00") (Some "2023-01-31 00:00:00") 0]
    [].

(** The store of a fresh server, and a request of the default account with
    an action the handler does not know. *)
Definition default_xdb : XtreamCodesServer.XDB :=
  XtreamCodesServer.add_default_user demo_digest "2023-01-01 00:00:00"
    (XtreamCodesServer.mkXDB [] []).

Definition query (action username password : string) : gmap string (list string) :=
  {[ "action" := [action]; "username" := [username]; "password" := [password] ]}.

(** A fresh [IPTVDatabase] initialised at time 0: the demonstration account
    expires at second 2592000. *)
Definition default_db : DB := add_default_users demo_digest 0 empty_db.

(** ** Integrity constraints of the schema *)

(** [UNIQUE(username)] on [users]. *)
Definition unique_usernames (db : DB) : Prop :=
  List.NoDup (map User.username (users db)).

(** [username TEXT UNIQUE] on [users_xtream]. *)
Definition xtream_unique_usernames (db : XtreamCodesServer.XDB) : Prop :=
  List.NoDup (map XtreamCodesServer.username (XtreamCodesServer.users_xtream db)).

(** [AUTOINCREMENT] on [statistics.stat_id]: no key in the table is above the
    sequence counter. *)
Definition statistics_wf (db : DB) : Prop :=
  Forall (fun r => Stat.stat_id r <= statistics_seq db) (statistics db).

(** ** Vocabulary of the claims on statistics *)

Definition opt_int_eqb (a b : option Z) : bool :=
  match a, b with
  | Some x, Some y => x =? y
  | None, None => true
  | _, _ => false
  end.

(** The rows of the (date, subscriber, stream) key, an absent id being a key
    value like any other. *)
Definition has_key (today : string) (user_id stream_id : option Z) (r : Stat.row)
    : bool :=
  String.eqb (Stat.stat_date r) today
  && opt_int_eqb (Stat.user_id r) user_id
  && opt_int_eqb (Stat.stream_id r) stream_id.

Definition stat_rows (today : string) (user_id stream_id : option Z) (db : DB)
    : list Stat.row :=
  List.filter (has_key today user_id stream_id) (statistics db).

(** ** Sequences of session calls *)

Definition find_session (session_id : string) (db : DB) : option Session.row :=
  find (fun s => String.eqb (Session.session_id s) session_id) (active_sessions db).

Definition result_of {A} (o : Outcome A) : option A :=
  match o with
  | Returned v _ => Some v
  | _ => None
  end.

(** The session operations of the store. *)
Inductive call :=
| CreateSession (user_id : Z) (stream_id : option Z) (client_ip user_agent : option string)
| UpdateSession (session_id : string) (bytes_sent : Z)
| CheckUserConnections (user_id : Z)
| CleanupOldData (days : Z).

(** A call, the object it is made on and the clock reading it sees. *)
Record event := mkEvent {
  on : nat;
  clock : Z;
  what : call
}.

Section Runs.

Variable sha256_hex : string -> string.
Variable str_datetime : Z -> string.

Definition perform (now : Z) (c : call) : M unit :=
  match c with
  | CreateSession user_id stream_id client_ip user_agent =>
      create_session sha256_hex str_datetime now user_id stream_id client_ip user_agent;;
      mret tt
  | UpdateSession session_id bytes_sent => update_session now session_id bytes_sent
  | CheckUserConnections user_id => check_user_connections user_id;; mret tt
  | CleanupOldData days => cleanup_old_data now days
  end.

Definition step (e : event) (w : World) : World :=
  snd (call_on (on e) (perform (clock e) (what e)) w).

Definition run (events : list event) (w : World) : World :=
  fold_left (fun w e => step e w) events w.

(** The worlds a run passes through, the first and the last included. *)
Fixpoint trace (events : list event) (w : World) : list World :=
  w :: match events with
       | [] => []
       | e :: events' => trace events' (step e w)
       end.

End Runs.

(** What [check_user_connections] reports for a subscriber, on an object whose
    lock is free: is the count of active sessions below the cap? *)
Definition under_cap (user_id : Z) (db : DB) : bool :=
  match result_of (check_user_connections user_id (mkInst db false)) with
  | Some (active_connections, max_connections) =>
      active_connections <? max_connections
  | None => false
  end.

(** The capacity invariant for one subscriber: the count is at most the cap
    that [check_user_connections] reports. *)
Definition within_cap (user_id : Z) (db : DB) : Prop :=
  forall active_connections max_connections,
    result_of (check_user_connections user_id (mkInst db false))
    = Some (active_connections, max_connections) ->
    active_connections <= max_connections.

(** Every [create_session] of the run is made in a state in which the check
    for its subscriber reports a count below the cap. *)
Fixpoint admissions_current (step : event -> World -> World)
    (events : list event) (w : World) : Prop :=
  match events with
  | [] => True
  | e :: events' =>
      match what e with
      | CreateSession user_id _ _ _ => under_cap user_id (file w) = true
      | _ => True
      end
      /\ admissions_current step events' (step e w)
  end.

(** Two objects on the file of a fresh database; each checks the
    demonstration account (id 2, cap 1) and then opens a session for it. *)
Definition two_clients : list event :=
  [ mkEvent 0 100 (CheckUserConnections 2);
    mkEvent 1 101 (CheckUserConnections 2);
    mkEvent 0 102 (CreateSession 2 (Some 7) (Some "10.0.0.1") None);
    mkEvent 1 103 (CreateSession 2 (Some 7) (Some "10.0.0.2") None) ].

(** A store with one session that the sweep has closed, and calls that name
    it afterwards. *)
Definition closed_session : Session.row :=
  Session.mk "5e55" 2 (Some 7) (Some "10.0.0.1") None 10 20 0 4096.

Definition store_with_closed_session : DB :=
  with_sessions [closed_session] default_db.

Definition later_calls : list event :=
  [ mkEvent 0 5000000 (UpdateSession "5e55" 100);
    mkEvent 0 5000001 (CleanupOldData 1);
    mkEvent 1 5000002 (UpdateSession "5e55" 100);
    mkEvent 1 5000003 (CreateSession 2 (Some 7) (Some "10.0.0.1") None);
    mkEvent 2 5000004 (CheckUserConnections 2) ].

(** One client that checks before it opens a session. *)
Definition one_client : list event :=
  [ mkEvent 0 100 (CheckUserConnections 2);
    mkEvent 0 101 (CreateSession 2 (Some 7) (Some "10.0.0.1") None);
    mkEvent 1 102 (UpdateSession "5e55" 100);
    mkEvent 1 103 (CleanupOldData 30) ].

(** ** Vocabulary of the claims on the playlist *)

(** The text of a group marker: the blank line, the [#EXTINF] line that names
    the group and the [#EXTVLCOPT] line. *)
Definition group_marker (category_name : option string) : string :=
  nl +:+ "#EXTINF:-1 group-title=" +:+ dq +:+ pystr category_name +:+ dq
     +:+ "," +:+ pystr category_name +:+ nl
     +:+ "#EXTVLCOPT:network-caching=1000" +:+ nl.

(** The text of an entry: its [#EXTINF] line, every field as it is stored,
    and its URL line. *)
Definition entry_block (output_format : string) (s : Stream.row) : string :=
  "#EXTINF:-1 tvg-id=" +:+ dq
    +:+ str_or (Stream.epg_channel_id s) (Stream.stream_name s) +:+ dq +:+ " "
    +:+ "tvg-name=" +:+ dq +:+ Stream.stream_name s +:+ dq +:+ " "
    +:+ "tvg-logo=" +:+ dq +:+ pystr (Stream.stream_icon s) +:+ dq +:+ " "
    +:+ "group-title=" +:+ dq +:+ pystr (Stream.category_name s) +:+ dq +:+ ","
    +:+ Stream.stream_name s +:+ nl
    +:+ (if String.eqb output_format "ts"
         then pystr (Stream.proxy_url s) else Stream.stream_url s) +:+ nl.

Inductive item :=
| GroupMarker (category_name : option string)
| Entry (s : Stream.row).

Definition render_item (output_format : string) (i : item) : string :=
  match i with
  | GroupMarker c => group_marker c
  | Entry s => entry_block output_format s
  end.

Definition render (output_format : string) (items : list item) : string :=
  fold_right (fun i text => render_item output_format i +:+ text) EmptyString items.

(** The items of a playlist: every stream is an entry, preceded by a group
    marker exactly when its category differs from the category of the entry
    before it; the first entry is compared with [current]. *)
Fixpoint playlist_items (current : option string) (streams : list Stream.row)
    : list item :=
  match streams with
  | [] => []
  | s :: streams' =>
      (if opt_str_eqb (Stream.category_name s) current then []
       else [GroupMarker (Stream.category_name s)])
      ++ Entry s :: playlist_items (Stream.category_name s) streams'
  end.

Fixpoint count_char (c : ascii) (s : string) : nat :=
  match s with
  | EmptyString => 0%nat
  | String c' s' => ((if Ascii.eqb c c' then 1 else 0) + count_char c s')%nat
  end.

(** A subscriber with one stream, whose name holds a double quote and a line
    break. *)
Definition hostile_stream : Stream.row :=
  Stream.mk 1 ("News" +:+ dq +:+ nl +:+ "http://evil.example/x") "http://origin.example/news.m3u8"
    (Some 3) (Some "News") (Some "logo.png") (Some "news.id") 1 (Some 2)
    (Some "http://localhost/live/0a1b2c3d").

Definition hostile_db : DB :=
  mkDB [] 0 [] [] 0 [hostile_stream]
       [Category.mk 3 "News" 0 "live" 1 None 3] [].

(** A subscriber with three streams in two categories, stored out of
    order. *)
Definition stream_x : Stream.row :=
  Stream.mk 3 "X" "http://origin.example/x" (Some 1) (Some "catA") None None 1
    (Some 2) (Some "http://localhost/live/000000aa").
Definition stream_y : Stream.row :=
  Stream.mk 2 "Y" "http://origin.example/y" (Some 1) (Some "catA") None None 1
    (Some 2) (Some "http://localhost/live/000000bb").
Definition stream_z : Stream.row :=
  Stream.mk 1 "Z" "http://origin.example/z" (Some 2) (Some "catB") None None 1
    (Some 2) (Some "http://localhost/live/000000cc").

Definition three_streams_db : DB :=
  mkDB [] 0 [] [] 0 [stream_z; stream_y; stream_x]
       [Category.mk 1 "catA" 0 "live" 1 None 1;
        Category.mk 2 "catB" 0 "live" 1 None 2] [].

(** The lines of a text, split at every line break. *)
Fixpoint lines_from (line : string) (s : string) : list string :=
  match s with
  | EmptyString => [String.rev line]
  | String c s' =>
      if Ascii.eqb c "010"%char then String.rev line :: lines_from EmptyString s'
      else lines_from (String c line) s'
  end.

Definition lines (s : string) : list string := lines_from EmptyString s.

(** ** [IPTVDatabase]: lookup by API key *)

(** [SELECT * FROM users WHERE api_key = ? AND is_active = 1], then
    [fetchone]. *)
Definition get_user_by_api_key (api_key : string) : M (option User.row) :=
  with_lock (
    db ← read_store;
    mret (find (fun u => sql_eq_str (User.api_key u) (Some api_key)
                         && (User.is_active u =? 1))
               (users db))).

(** ** [IPTVDatabase]: live streams *)

Module StreamData.
(** The dictionary [stream_data], by key.  [stream_url] is [None] when the
    key is absent: it is the one key the method subscripts.  The other keys
    are read with [get], for which an absent key and [None] are alike.  The
    keys [type], [bitrate] and [resolution] fill columns that [Stream.row]
    leaves out. *)
Record t := mk {
  stream_url : option string;
  name : option string;
  url : option string;
  category_id : option Z;
  category_name : option string;
  icon : option string;
  epg_id : option string;
  user_id : option Z
}.
End StreamData.

(** How a call ends when it can also raise [KeyError], which leaves the
    store as it was and the lock free. *)
Inductive Raises (A : Type) :=
| KeyError (key : string)
| Completes (o : Outcome A).
Arguments KeyError {A} key.
Arguments Completes {A} o.

(** The key of the next row of [live_streams].  No statement of the class
    deletes a stream, so the largest key ever used is the largest in the
    table. *)
Definition next_stream_id (db : DB) : Z :=
  fold_right Z.max 0 (map Stream.stream_id (live_streams db)) + 1.

Definition with_live_streams (ls : list Stream.row) (db : DB) : DB :=
  mkDB (users db) (users_seq db) (active_sessions db) (statistics db)
       (statistics_seq db) ls (categories db) (logs db).

(** [UPDATE users SET total_streams = total_streams + 1 WHERE id = ?]. *)
Definition bump_total_streams (user_id : Z) (db : DB) : DB :=
  with_users
    (map (fun u => if User.id u =? user_id
                   then User.mk (User.id u) (User.username u) (User.password u)
                          (User.email u) (User.role u) (User.is_active u)
                          (User.max_connections u) (User.created_at u)
                          (User.expires_at u) (User.last_login u)
                          (User.total_streams u + 1) (User.api_key u)
                   else u)
         (users db))
    (users_seq db) db.

(** [if x:] for an integer that may be [None]. *)
Definition truthy_int (x : option Z) : bool :=
  match x with
  | Some n => negb (n =? 0)
  | None => false
  end.

Section LiveStreams.

(** [hashlib.md5(s.encode()).hexdigest()]. *)
Variable md5_hex : string -> string.

(** The statements of [add_live_stream] once [stream_data['stream_url']] has
    been read.  [stream_name] and [stream_url] are [NOT NULL]: a missing
    [name] or [url] fails the insert. *)
Definition add_live_stream_body (now : Z) (stream_url : string)
    (stream_data : StreamData.t) : M Z :=
  let stream_hash := substring 0 8 (md5_hex stream_url) in
  let proxy_url := "http://localhost/live/" +:+ stream_hash in
  db ← read_store;
  match StreamData.name stream_data, StreamData.url stream_data with
  | Some name, Some url =>
      let stream_id := next_stream_id db in
      let db :=
        with_live_streams
          (live_streams db ++
             [Stream.mk stream_id name url
                (StreamData.category_id stream_data)
                (StreamData.category_name stream_data)
                (StreamData.icon stream_data)
                (StreamData.epg_id stream_data)
                1 (StreamData.user_id stream_data) (Some proxy_url)])
          db in
      let db :=
        if truthy_int (StreamData.user_id stream_data)
        then bump_total_streams (default 0 (StreamData.user_id stream_data)) db
        else db in
      write_store db;;
      log_action now (StreamData.user_id stream_data) "stream_added"
        ("Added stream: " +:+ pystr (StreamData.name stream_data));;
      mret stream_id
  | _, _ => raise IntegrityError
  end.

Definition add_live_stream (now : Z) (stream_data : StreamData.t)
    : Inst -> Raises Z :=
  fun s =>
    if lock_held s then Completes (Blocked s)
    else
      match StreamData.stream_url stream_data with
      | Some stream_url =>
          Completes (with_lock (add_live_stream_body now stream_url stream_data) s)
      | None => KeyError "stream_url"
      end.

End LiveStreams.

(** [get_live_streams]: the filters are added for a truthy argument only, so
    [0] filters as little as [None]. *)
Definition get_live_streams (user_id category_id : option Z) : M (list Stream.row) :=
  with_lock (
    db ← read_store;
    mret (order_by (fun s t => String.leb (Stream.stream_name s) (Stream.stream_name t))
            (List.filter
               (fun s => (Stream.is_active s =? 1)
                         && (if truthy_int user_id
                             then sql_eq_int (Stream.user_id s) user_id else true)
                         && (if truthy_int category_id
                             then sql_eq_int (Stream.category_id s) category_id
                             else true))
               (live_streams db)))).

(** [get_stream_by_id]: the row of [live_streams] with the user name of its
    owner.  The joined [c.category_name] is hidden in the dictionary by the
    column of the same name of [ls.*]. *)
Definition get_stream_by_id (stream_id : Z) : M (option (Stream.row * option string)) :=
  with_lock (
    db ← read_store;
    mret (option_map
            (fun s => (s, match Stream.user_id s with
                          | Some uid =>
                              option_map User.username
                                (find (fun u => User.id u =? uid) (users db))
                          | None => None
                          end))
            (find (fun s => (Stream.stream_id s =? stream_id)
                            && (Stream.is_active s =? 1))
                  (live_streams db)))).

(** ** [IPTVDatabase]: categories *)

Definition with_categories (cs : list Category.row) (db : DB) : DB :=
  mkDB (users db) (users_seq db) (active_sessions db) (statistics db)
       (statistics_seq db) (live_streams db) cs (logs db).

(** The key of the next row of [categories]; no statement deletes a
    category. *)
Definition next_category_id (db : DB) : Z :=
  fold_right Z.max 0 (map Category.category_id (categories db)) + 1.

(** [UNIQUE(category_name, category_type, user_id)]: is there a row that
    an insert of these three values would collide with?  A [NULL] owner
    collides with nothing. *)
Definition category_conflict (name category_type : string) (user_id : option Z)
    (db : DB) : bool :=
  existsb (fun c => String.eqb (Category.category_name c) name
                    && String.eqb (Category.category_type c) category_type
                    && sql_eq_int (Category.user_id c) user_id)
          (categories db).

Definition insert_category (name : string) (parent_id : Z) (category_type : string)
    (user_id : option Z) (sort_order : Z) (db : DB) : DB :=
  with_categories
    (categories db ++
       [Category.mk (next_category_id db) name parent_id category_type 1
          user_id sort_order])
    db.

(** [INSERT OR IGNORE INTO categories (category_name, parent_id,
    category_type, sort_order)] of [add_default_data]: no owner. *)
Definition insert_or_ignore_category (name : string) (parent_id : Z)
    (category_type : string) (sort_order : Z) (db : DB) : DB :=
  if category_conflict name category_type None db then db
  else insert_category name parent_id category_type None sort_order db.

Definition default_categories : list (string * Z * string * Z) :=
  [ ("عامة", 0, "live", 1);
    ("رياضية", 0, "live", 2);
    ("أخبار", 0, "live", 3);
    ("ترفيه", 0, "live", 4);
    ("أطفال", 0, "live", 5);
    ("أفلام", 0, "vod", 1);
    ("مسلسلات", 0, "vod", 2);
    ("وثائقيات", 0, "vod", 3) ].

(** The loop over [default_categories] in [add_default_data]. *)
Definition add_default_categories (db : DB) : DB :=
  fold_left
    (fun db '(name, parent, cat_type, order) =>
       insert_or_ignore_category name parent cat_type order db)
    default_categories db.

(** [SELECT MAX(sort_order) FROM categories WHERE category_type = ? AND
    user_id = ?], then [fetchone()[0]]: [None] when no row matches. *)
Definition select_max_sort_order (category_type : string) (user_id : option Z)
    (db : DB) : option Z :=
  match map Category.sort_order
          (List.filter (fun c => String.eqb (Category.category_type c) category_type
                                 && sql_eq_int (Category.user_id c) user_id)
                       (categories db)) with
  | [] => None
  | x :: xs => Some (fold_right Z.max x xs)
  end.

Definition add_category (now : Z) (name category_type : string) (parent_id : Z)
    (user_id : option Z) : M Z :=
  with_lock (
    db ← read_store;
    let max_order := int_or (select_max_sort_order category_type user_id db) 0 in
    if category_conflict name category_type user_id db then raise IntegrityError
    else
      let category_id := next_category_id db in
      write_store (insert_category name parent_id category_type user_id
                     (max_order + 1) db);;
      log_action now user_id "category_added" ("Added category: " +:+ name);;
      mret category_id).

(** [ORDER BY sort_order, category_name]. *)
Definition category_order (c d : Category.row) : bool :=
  match Category.sort_order c ?= Category.sort_order d with
  | Lt => true
  | Gt => false
  | Eq => String.leb (Category.category_name c) (Category.category_name d)
  end.

(** [if category_type:] for a string that may be [None]. *)
Definition truthy_str (x : option string) : bool :=
  match x with
  | Some EmptyString => false
  | Some _ => true
  | None => false
  end.

(** The [WHERE] clause that [get_categories] builds. *)
Definition category_visible (category_type : option string) (user_id : option Z)
    (c : Category.row) : bool :=
  (Category.is_active c =? 1)
  && (if truthy_str category_type
      then sql_eq_str (Some (Category.category_type c)) category_type else true)
  && (if truthy_int user_id
      then sql_eq_int (Category.user_id c) user_id
           || match Category.user_id c with None => true | Some _ => false end
      else true).

Definition get_categories (category_type : option string) (user_id : option Z)
    : M (list Category.row) :=
  with_lock (
    db ← read_store;
    mret (order_by category_order
            (List.filter (category_visible category_type user_id) (categories db)))).

(** ** [IPTVDatabase]: settings *)

Module Setting.
(** Table [settings], without [setting_id], which no method reads. *)
Record row := mk {
  setting_key : string;
  setting_value : option string;
  setting_type : string;
  category : string;
  description : option string;
  is_public : Z
}.
End Setting.

(** The store record holds no settings: the two methods take the table and
    [update_setting] returns the table it leaves. *)
Definition get_setting (key : string) (default : option string)
    (settings : list Setting.row) : M (option string) :=
  with_lock (
    match find (fun r => String.eqb (Setting.setting_key r) key) settings with
    | Some result => mret (Setting.setting_value result)
    | None => mret default
    end).

(** [INSERT OR REPLACE INTO settings (setting_key, setting_value)]: the row
    of the key is deleted, and the new one takes the column defaults. *)
Definition replace_setting (key value : string) (settings : list Setting.row)
    : list Setting.row :=
  List.filter (fun r => negb (String.eqb (Setting.setting_key r) key)) settings
    ++ [Setting.mk key (Some value) "string" "general" None 0].


(** [INSERT OR IGNORE INTO settings (setting_key, setting_value,
    setting_type, category, description)] of [add_default_data]. *)
Definition insert_or_ignore_setting (key value type_ category desc : string)
    (settings : list Setting.row) : list Setting.row :=
  if existsb (fun r => String.eqb (Setting.setting_key r) key) settings
  then settings
  else settings ++ [Setting.mk key (Some value) type_ category (Some desc) 0].

Definition default_settings : list (string * string * string * string * string) :=
  [ ("system_name", "Flussonic IPTV", "string", "general", "اسم النظام");
    ("system_version", "1.0.0", "string", "general", "إصدار النظام");
    ("max_connections_per_user", "3", "integer", "streaming", "أقصى اتصالات لكل مستخدم");
    ("stream_timeout", "30", "integer", "streaming", "مهلة البث بالثواني");
    ("hls_segment_duration", "2", "integer", "streaming", "مدة قطعة HLS");
    ("hls_playlist_length", "10", "integer", "streaming", "طول قائمة HLS");
    ("enable_registration", "1", "boolean", "security", "تفعيل التسجيل");
    ("require_email_verification", "0", "boolean", "security", "تفعيل البريد الإلكتروني");
    ("default_user_expiry_days", "30", "integer", "billing", "مدة صلاحية المستخدم");
    ("currency", "USD", "string", "billing", "العملة");
    ("timezone", "UTC", "string", "general", "المنطقة الزمنية");
    ("language", "ar", "string", "general", "اللغة الافتراضية");
    ("enable_xtream_api", "1", "boolean", "api", "تفعيل Xtream API");
    ("enable_m3u_api", "1", "boolean", "api", "تفعيل M3U API");
    ("enable_epg", "1", "boolean", "epg", "تفعيل EPG") ].

Definition add_default_settings (settings : list Setting.row) : list Setting.row :=
  fold_left
    (fun settings '(key, value, type_, category, desc) =>
       insert_or_ignore_setting key value type_ category desc settings)
    default_settings settings.

(** ** [IPTVDatabase]: the Xtream user-info record *)

Module Vod.
(** Table [vod_streams], the columns [get_xtream_user_info] reads. *)
Record row := mk {
  vod_id : Z;
  user_id : option Z;
  is_active : Z
}.
End Vod.

Module Series.
(** Table [series], the columns [get_xtream_user_info] reads. *)
Record row := mk {
  series_id : Z;
  user_id : option Z;
  is_active : Z
}.
End Series.

(** [COUNT(DISTINCT x)] over the joined rows. *)
Definition count_distinct (ids : list Z) : Z :=
  Z.of_nat (length (nodup Z.eq_dec ids)).

Section XtreamUserInfo.

(** The text SQLite stores for a time stamp. *)
Variable timestamp_text : Z -> string.

(** [get_xtream_user_info].  [generated] is
    [datetime.now().strftime('%Y-%m-%d %H:%M:%S')]; the tables [vod_streams]
    and [series], which the store record does not hold, are arguments. *)
Definition get_xtream_user_info (generated : string) (username : string)
    (vod_streams : list Vod.row) (series : list Series.row)
    : M XtreamCodesServer.json :=
  with_lock (
    db ← read_store;
    match find (fun u => String.eqb (User.username u) username
                         && (User.is_active u =? 1)) (users db) with
    | Some user =>
        let owned {A} (owner : A -> option Z) (active : A -> Z) (r : A) : bool :=
          sql_eq_int (Some (User.id user)) (owner r) && (active r =? 1) in
        mret (XtreamCodesServer.JObj [
          ("username", XtreamCodesServer.JStr (User.username user));
          ("password", XtreamCodesServer.JStr "********");
          ("message", XtreamCodesServer.JStr "تم المصادقة بنجاح");
          ("auth", XtreamCodesServer.JInt 1);
          ("status", XtreamCodesServer.JStr "Active");
          ("exp_date", XtreamCodesServer.JStr
             (str_or (option_map timestamp_text (User.expires_at user)) "2099-12-31"));
          ("is_trial", XtreamCodesServer.JInt 0);
          ("active_cons", XtreamCodesServer.JInt 0);
          ("created_at", XtreamCodesServer.JStr generated);
          ("max_connections",
             XtreamCodesServer.opt_int_json (User.max_connections user));
          ("allowed_output_formats",
             XtreamCodesServer.JArr [XtreamCodesServer.JStr "m3u8";
                                     XtreamCodesServer.JStr "ts";
                                     XtreamCodesServer.JStr "rtmp"]);
          ("total_streams", XtreamCodesServer.JInt
             (count_distinct
                (map Stream.stream_id
                   (List.filter (owned Stream.user_id Stream.is_active)
                      (live_streams db)))));
          ("total_vod", XtreamCodesServer.JInt
             (count_distinct
                (map Vod.vod_id
                   (List.filter (owned Vod.user_id Vod.is_active) vod_streams))));
          ("total_series", XtreamCodesServer.JInt
             (count_distinct
                (map Series.series_id
                   (List.filter (owned Series.user_id Series.is_active) series))))])
    | None => mret XtreamCodesServer.negative_envelope
    end).

End XtreamUserInfo.

(** ** [XtreamCodesServer]: the dispatcher *)

(** [needle in s]. *)
Fixpoint contains (needle s : string) : bool :=
  String.prefix needle s
  || match s with
     | EmptyString => false
     | String _ s' => contains needle s'
     end.

(** An exception that [handle_request] catches; [ValueError] is what
    [urlparse] raises for a malformed URL. *)
Inductive caught :=
| FromHandler (e : XtreamCodesServer.error)
| ValueError.

(** What [handle_request] returns: the bytes of a JSON value, the bytes
    [Invalid request], or [Error: ] followed by the text of the exception
    caught. *)
Inductive response :=
| Body (j : XtreamCodesServer.json)
| InvalidRequest
| ErrorText (e : caught).

Section Dispatcher.

Variable md5_hex : string -> string.

(** [urlparse] of the request target followed by [parse_qs] of its query
    string; [None] when [urlparse] raises. *)
Variable parse_query : string -> option (gmap string (list string)).

(** [handle_request] on decoded request text.  The class defines neither
    [handle_stream_request] nor [handle_m3u_request]: looking them up
    raises [AttributeError], which the [except] clause turns into text. *)
Definition handle_request (db : XtreamCodesServer.XDB) (data : string) : response :=
  if contains "/player_api.php" data then
    match parse_query data with
    | Some params =>
        match XtreamCodesServer.handle_api_request md5_hex db params with
        | inl j => Body j
        | inr e => ErrorText (FromHandler e)
        end
    | None => ErrorText ValueError
    end
  else if contains "/live/" data then
    ErrorText (FromHandler (XtreamCodesServer.AttributeError "handle_stream_request"))
  else if contains "/get.php" data then
    ErrorText (FromHandler (XtreamCodesServer.AttributeError "handle_m3u_request"))
  else InvalidRequest.

End Dispatcher.

(** ** Vocabulary of the further properties *)


(** The constraints of [users]: unique user names, and keys that are
    distinct and not above the [AUTOINCREMENT] counter. *)
Definition users_wf (db : DB) : Prop :=
  unique_usernames db
  /\ Forall (fun u => User.id u <= users_seq db) (users db)
  /\ List.NoDup (map User.id (users db)).



(** The constraints of [statistics]: keys that are distinct and not above
    the counter. *)
Definition statistics_keys_wf (db : DB) : Prop :=
  statistics_wf db /\ List.NoDup (map Stat.stat_id (statistics db)).

(** A stream of subscriber 5, for the examples. *)
Definition hostile_stream_of_another : Stream.row :=
  Stream.mk 9 "Other" "http://origin.example/other" (Some 1) (Some "catA") None None
    1 (Some 5) (Some "http://localhost/live/000000dd").

(** The categories of the group markers of a playlist, in order. *)
Definition markers (items : list item) : list (option string) :=
  flat_map (fun i => match i with
                     | GroupMarker c => [c]
                     | Entry _ => []
                     end) items.

(** A catalogue in which the [category_name] column of a stream is not the
    name of its category: the query orders by the names A, B, C of the
    categories, the loop reads News, Sports, News. *)
Definition renamed_categories_db : DB :=
  mkDB [] 0 [] [] 0
    [ Stream.mk 1 "One" "http://origin.example/1" (Some 1) (Some "News") None None 1
        (Some 2) None;
      Stream.mk 2 "Two" "http://origin.example/2" (Some 2) (Some "Sports") None None 1
        (Some 2) None;
      Stream.mk 3 "Three" "http://origin.example/3" (Some 3) (Some "News") None None 1
        (Some 2) None ]
    [ Category.mk 1 "A" 0 "live" 1 None 1;
      Category.mk 2 "B" 0 "live" 1 None 2;
      Category.mk 3 "C" 0 "live" 1 None 3 ] [].

(** An account with another password. *)
Definition xtream_set_password (p : string) (u : XtreamCodesServer.user_row)
    : XtreamCodesServer.user_row :=
  XtreamCodesServer.mk_user (XtreamCodesServer.id u) (XtreamCodesServer.username u) p
    (XtreamCodesServer.is_active u) (XtreamCodesServer.max_connections u)
    (XtreamCodesServer.created_at u) (XtreamCodesServer.expires_at u)
    (XtreamCodesServer.total_streams u).

Definition set_password (p : string) (u : User.row) : User.row :=
  User.mk (User.id u) (User.username u) p (User.email u) (User.role u)
    (User.is_active u) (User.max_connections u) (User.created_at u)
    (User.expires_at u) (User.last_login u) (User.total_streams u) (User.api_key u).

(** The row of a setting. *)
Definition find_setting (key : string) (settings : list Setting.row)
    : option Setting.row :=
  find (fun r => String.eqb (Setting.setting_key r) key) settings.

(** A field of a JSON object. *)
Definition json_field (key : string) (j : XtreamCodesServer.json)
    : option XtreamCodesServer.json :=
  match j with
  | XtreamCodesServer.JObj fields =>
      option_map snd (find (fun kv => String.eqb (fst kv) key) fields)
  | _ => None
  end.

(** The dictionary that the self-test of the module passes to
    [add_live_stream], with the id of the account it has just created. *)
Definition self_test_stream : StreamData.t :=
  StreamData.mk None (Some "Test Channel") (Some "http://example.com/stream.m3u8")
    (Some 1) (Some "عامة") None None (Some 3).

(** The same with the key [stream_url]. *)
Definition complete_stream : StreamData.t :=
  StreamData.mk (Some "http://example.com/stream.m3u8") (Some "Test Channel")
    (Some "http://example.com/stream.m3u8") (Some 1) (Some "عامة") None None (Some 2).
(** * Properties *)

(** ** The lock *)

Ltac run_method :=
  unfold with_lock, mbind, M_bind, mret, M_ret, bind, ret, raise,
    read_store, write_store; simpl.

Lemma with_lock_held {A} (body : M A) (s : Inst) :
  lock_held s = true -> with_lock body s = Blocked s.
Proof. intros H. unfold with_lock. now rewrite H. Qed.

Lemma with_lock_free {A} (body : M A) (db : DB) :
  with_lock body (mkInst db false) =
  match body (mkInst db true) with
  | Returned v s' => Returned v (mkInst (store s') false)
  | Raised e s' => Raised e (mkInst (store s') false)
  | Blocked s' => Blocked s'
  end.
Proof. reflexivity. Qed.

(** [log_action] called from inside a lock section of the same object never
    returns: the lock it waits for is held by its own caller. *)
Lemma log_action_inside_lock (now : Z) (uid : option Z) (action details : string)
    (db : DB) :
  log_action now uid action details (mkInst db true) = Blocked (mkInst db true).
Proof. reflexivity. Qed.

Lemma find_none_of_forall {A} (f : A -> bool) (l : list A) :
  (forall x, In x l -> f x = false) -> find f l = None.
Proof.
  induction l as [|a l IH]; intros H; simpl; [reflexivity|].
  rewrite (H a (or_introl eq_refl)). apply IH. intros x Hx. apply H. now right.
Qed.

Lemma existsb_false_in {A} (f : A -> bool) (l : list A) :
  existsb f l = false -> forall x, In x l -> f x = false.
Proof.
  induction l as [|a l IH]; simpl; intros H x Hx; [contradiction|].
  apply orb_false_elim in H as [Ha Hl].
  destruct Hx as [->|Hx]; [assumption|now apply IH].
Qed.

Lemma find_app_none {A} (f : A -> bool) (l l' : list A) :
  find f l = None -> find f (l ++ l') = find f l'.
Proof.
  induction l as [|a l IH]; simpl; [reflexivity|].
  destruct (f a); [discriminate|assumption].
Qed.

Lemma find_unique_key {A K} (key : A -> K) (f : A -> bool) (l : list A) (r : A) :
  List.NoDup (map key l) -> In r l -> f r = true ->
  (forall x, In x l -> f x = true -> key x = key r) ->
  find f l = Some r.
Proof.
  induction l as [|a l IH]; simpl; intros Hnd Hin Hr Hkey; [contradiction|].
  inversion Hnd as [|k ks Hnotin Hnd']; subst.
  destruct (f a) eqn:Ha.
  - destruct Hin as [->|Hin]; [reflexivity|].
    exfalso. apply Hnotin. rewrite (Hkey a (or_introl eq_refl) Ha).
    now apply in_map.
  - destruct Hin as [->|Hin]; [congruence|].
    apply IH; auto.
Qed.

(** ** Authentication against [users] *)

Section DatabaseFacts.

Variable sha256_hex : string -> string.
Variable str_datetime : Z -> string.

Lemma authenticate_user_no_match now username password db :
  select_credentials username (sha256_hex password) db = None ->
  authenticate_user sha256_hex now username password (mkInst db false)
  = Returned None (mkInst db false).
Proof. intros H. unfold authenticate_user. run_method. now rewrite H. Qed.

Lemma authenticate_user_match now username password db user :
  select_credentials username (sha256_hex password) db = Some user ->
  authenticate_user sha256_hex now username password (mkInst db false)
  = Blocked (mkInst (update_last_login now (User.id user) db) true).
Proof. intros H. unfold authenticate_user. run_method. now rewrite H. Qed.

Lemma select_credentials_wrong_password username hashed db :
  (forall u, In u (users db) -> User.username u = username ->
             User.password u <> hashed) ->
  select_credentials username hashed db = None.
Proof.
  intros H. apply find_none_of_forall. intros u Hu.
  destruct (String.eqb_spec (User.username u) username) as [E|]; [|reflexivity].
  destruct (String.eqb_spec (User.password u) hashed) as [E'|]; [|reflexivity].
  now destruct (H u Hu E).
Qed.

Lemma select_credentials_unknown_user username hashed db :
  (forall u, In u (users db) -> User.username u <> username) ->
  select_credentials username hashed db = None.
Proof.
  intros H. apply select_credentials_wrong_password.
  intros u Hu E. now destruct (H u Hu).
Qed.

Lemma select_credentials_found username hashed db user :
  unique_usernames db -> In user (users db) ->
  User.username user = username -> User.password user = hashed ->
  User.is_active user = 1 ->
  select_credentials username hashed db = Some user.
Proof.
  intros Hnd Hin Hu Hp Ha. unfold select_credentials.
  apply (find_unique_key User.username); auto.
  - rewrite Hu, Hp, Ha, !String.eqb_refl. reflexivity.
  - intros x _ Hx. apply andb_prop in Hx as [Hx _]. apply andb_prop in Hx as [Hx _].
    apply String.eqb_eq in Hx. congruence.
Qed.

(** The row [create_user] inserts is the one the credentials query finds. *)
Lemma select_credentials_after_insert now username password email role maxc key db :
  users_conflict username key db = false ->
  select_credentials username (sha256_hex password)
    (insert_user now username (sha256_hex password) email role maxc key db)
  = Some (User.mk (users_seq db + 1) username (sha256_hex password) email role 1
            (Some maxc) now None None 0 (Some key)).
Proof.
  intros Hfree. unfold select_credentials, insert_user. simpl.
  rewrite find_app_none.
  - simpl. now rewrite !String.eqb_refl.
  - apply find_none_of_forall. intros u Hu.
    apply (existsb_false_in _ _ Hfree) in Hu.
    apply orb_false_elim in Hu as [-> _]. reflexivity.
Qed.

Lemma create_user_blocks now username password email role maxc db :
  users_conflict username (sha256_hex (username +:+ str_datetime now)) db = false ->
  create_user sha256_hex str_datetime now username password email role maxc
    (mkInst db false)
  = Blocked (mkInst (insert_user now username (sha256_hex password) email role maxc
                       (sha256_hex (username +:+ str_datetime now)) db) true).
Proof. intros H. unfold create_user. run_method. now rewrite H. Qed.

Lemma create_user_conflict now username password email role maxc db :
  users_conflict username (sha256_hex (username +:+ str_datetime now)) db = true ->
  create_user sha256_hex str_datetime now username password email role maxc
    (mkInst db false)
  = Raised IntegrityError (mkInst db false).
Proof. intros H. unfold create_user. run_method. now rewrite H. Qed.

(** The integrity constraint is kept by the insert of [create_user]. *)
Lemma insert_user_keeps_unique_usernames now username hashed email role maxc key db :
  users_conflict username key db = false ->
  unique_usernames db ->
  unique_usernames (insert_user now username hashed email role maxc key db).
Proof.
  intros Hfree Hnd. unfold unique_usernames, insert_user. simpl.
  rewrite map_app. simpl. apply List.NoDup_app; [assumption|repeat constructor; auto|].
  intros name Hin [<-|[]]. apply in_map_iff in Hin as (u & Hname & Hu).
  apply (existsb_false_in _ _ Hfree) in Hu.
  apply orb_false_elim in Hu as [Hu _]. apply String.eqb_neq in Hu. congruence.
Qed.

End DatabaseFacts.

(** ** Authentication against [users_xtream] *)

Section ServerFacts.

Variable md5_hex : string -> string.

Local Abbreviation xauthenticate := (XtreamCodesServer.authenticate_user md5_hex).
Local Abbreviation handle_api_request := (XtreamCodesServer.handle_api_request md5_hex).

Lemma xtream_authenticate_wrong_password db username password :
  (forall u, In u (XtreamCodesServer.users_xtream db) ->
             XtreamCodesServer.username u = username ->
             XtreamCodesServer.password u <> md5_hex password) ->
  xauthenticate db username password = None.
Proof.
  intros H. apply find_none_of_forall. intros u Hu.
  destruct (String.eqb_spec (XtreamCodesServer.username u) username) as [E|];
    [|reflexivity].
  destruct (String.eqb_spec (XtreamCodesServer.password u) (md5_hex password))
    as [E'|]; [|reflexivity].
  now destruct (H u Hu E).
Qed.

Lemma xtream_authenticate_unknown_user db username password :
  (forall u, In u (XtreamCodesServer.users_xtream db) ->
             XtreamCodesServer.username u <> username) ->
  xauthenticate db username password = None.
Proof.
  intros H. apply xtream_authenticate_wrong_password.
  intros u Hu E. now destruct (H u Hu).
Qed.

Lemma xtream_authenticate_found db username password user :
  xtream_unique_usernames db ->
  In user (XtreamCodesServer.users_xtream db) ->
  XtreamCodesServer.username user = username ->
  XtreamCodesServer.password user = md5_hex password ->
  XtreamCodesServer.is_active user = 1 ->
  xauthenticate db username password = Some user.
Proof.
  intros Hnd Hin Hu Hp Ha. unfold XtreamCodesServer.authenticate_user.
  apply (find_unique_key XtreamCodesServer.username); auto.
  - rewrite Hu, Hp, Ha, !String.eqb_refl. reflexivity.
  - intros x _ Hx. apply andb_prop in Hx as [Hx _]. apply andb_prop in Hx as [Hx _].
    apply String.eqb_eq in Hx. congruence.
Qed.

(** A request that fails authentication gets the negative envelope, whatever
    its action. *)
Lemma handle_api_request_unauthenticated db params action username password :
  XtreamCodesServer.first_param params "action" = Some action ->
  XtreamCodesServer.first_param params "username" = Some username ->
  XtreamCodesServer.first_param params "password" = Some password ->
  xauthenticate db username password = None ->
  handle_api_request db params = inl XtreamCodesServer.negative_envelope.
Proof.
  intros Ha Hu Hp Hauth. unfold XtreamCodesServer.handle_api_request.
  now rewrite Ha, Hu, Hp, Hauth.
Qed.

End ServerFacts.

(** ** Claims on authentication *)

(** C8. A failed attempt for a user name that exists, with a password whose
    digest is not the stored one, and a failed attempt for a user name that
    does not exist give the caller the same result: [IPTVDatabase] ends both
    calls alike and, its lock free, returns [None] from both without changing
    the store; [XtreamCodesServer] returns [None] from both, and answers both
    requests with the negative envelope. *)
Theorem failed_authentication_is_uniform
    (sha256_hex md5_hex : string -> string) (now now' : Z)
    (s : Inst) (xdb : XtreamCodesServer.XDB)
    (params params' : gmap string (list string))
    (action action' realuser wrongpass nouser anything : string) :
  (exists u, In u (users (store s)) /\ User.username u = realuser) ->
  (forall u, In u (users (store s)) -> User.username u = realuser ->
             User.password u <> sha256_hex wrongpass) ->
  (forall u, In u (users (store s)) -> User.username u <> nouser) ->
  (exists u, In u (XtreamCodesServer.users_xtream xdb)
             /\ XtreamCodesServer.username u = realuser) ->
  (forall u, In u (XtreamCodesServer.users_xtream xdb) ->
             XtreamCodesServer.username u = realuser ->
             XtreamCodesServer.password u <> md5_hex wrongpass) ->
  (forall u, In u (XtreamCodesServer.users_xtream xdb) ->
             XtreamCodesServer.username u <> nouser) ->
  XtreamCodesServer.first_param params "action" = Some action ->
  XtreamCodesServer.first_param params "username" = Some realuser ->
  XtreamCodesServer.first_param params "password" = Some wrongpass ->
  XtreamCodesServer.first_param params' "action" = Some action' ->
  XtreamCodesServer.first_param params' "username" = Some nouser ->
  XtreamCodesServer.first_param params' "password" = Some anything ->
  authenticate_user sha256_hex now realuser wrongpass s
    = authenticate_user sha256_hex now' nouser anything s
  /\ (lock_held s = false ->
      authenticate_user sha256_hex now realuser wrongpass s = Returned None s)
  /\ XtreamCodesServer.authenticate_user md5_hex xdb realuser wrongpass = None
  /\ XtreamCodesServer.authenticate_user md5_hex xdb nouser anything = None
  /\ XtreamCodesServer.handle_api_request md5_hex xdb params
     = inl XtreamCodesServer.negative_envelope
  /\ XtreamCodesServer.handle_api_request md5_hex xdb params'
     = inl XtreamCodesServer.negative_envelope.
Proof.
  intros _ Hwrong Hno _ Hxwrong Hxno Ha Hu Hp Ha' Hu' Hp'.
  pose proof (select_credentials_wrong_password realuser _ _ Hwrong) as E1.
  pose proof (select_credentials_unknown_user nouser (sha256_hex anything) _ Hno) as E2.
  pose proof (xtream_authenticate_wrong_password md5_hex _ _ _ Hxwrong) as X1.
  pose proof (xtream_authenticate_unknown_user md5_hex _ _ anything Hxno) as X2.
  destruct s as [db held]; simpl in *.
  repeat split; auto.
  - destruct held; [reflexivity|].
    now rewrite !authenticate_user_no_match.
  - intros ->. now apply authenticate_user_no_match.
  - eapply handle_api_request_unauthenticated; eauto.
  - eapply handle_api_request_unauthenticated; eauto.
Qed.

Lemma failed_authentication_is_uniform_witness :
  authenticate_user demo_digest 5 "demo" "letmein" (mkInst default_db false)
    = authenticate_user demo_digest 6 "nouser" "anything" (mkInst default_db false)
  /\ XtreamCodesServer.handle_api_request demo_digest default_xdb
       (query "get_live_streams" "demo" "letmein")
     = XtreamCodesServer.handle_api_request demo_digest default_xdb
         (query EmptyString "nouser" "anything").
Proof.
  destruct (failed_authentication_is_uniform demo_digest demo_digest 5 6
              (mkInst default_db false) default_xdb
              (query "get_live_streams" "demo" "letmein")
              (query EmptyString "nouser" "anything")
              "get_live_streams" EmptyString "demo" "letmein" "nouser" "anything")
    as (H1 & _ & _ & _ & H5 & H6).
  - exists (User.mk 2 "demo" (demo_digest "demo123") (Some "demo@iptv.com") "user"
              1 (Some 1) 0 (Some 2592000) None 0 None).
    vm_compute. auto.
  - intros u Hu. vm_compute in Hu.
    destruct Hu as [<-|[<-|[]]]; vm_compute; congruence.
  - intros u Hu. vm_compute in Hu.
    destruct Hu as [<-|[<-|[]]]; vm_compute; congruence.
  - exists (XtreamCodesServer.mk_user 1 "demo" (demo_digest "demo") 1 (Some 1)
              (Some "2023-01-01 00:00:00") None 0).
    vm_compute. auto.
  - intros u Hu. vm_compute in Hu.
    destruct Hu as [<-|[]]; vm_compute; congruence.
  - intros u Hu. vm_compute in Hu.
    destruct Hu as [<-|[]]; vm_compute; congruence.
  - reflexivity.
  - reflexivity.
  - reflexivity.
  - reflexivity.
  - reflexivity.
  - reflexivity.
  - split; [exact H1|]. now rewrite H5, H6.
Defined.

(** C2, as stated, fails: neither [authenticate_user] reads [expires_at].
    The server returns the row of an account that expired in January 2023,
    and thirty-four days after initialisation the credentials query of
    [IPTVDatabase] still selects the demonstration account, which expired on
    day thirty, and stamps its [last_login]. *)
Lemma expired_subscriber_is_authenticated :
  XtreamCodesServer.authenticate_user demo_digest expired_xdb "demo" "demo"
  = Some (XtreamCodesServer.mk_user 1 "demo" (demo_digest "demo") 1 (Some 1)
            (Some "2023-01-01 00:00:00") (Some "2023-01-31 00:00:00") 0)
  /\ select_credentials "demo" (demo_digest "demo123") default_db
     = Some (User.mk 2 "demo" (demo_digest "demo123") (Some "demo@iptv.com")
               "user" 1 (Some 1) 0 (Some 2592000) None 0 None)
  /\ 2592000 < 3000000
  /\ authenticate_user demo_digest 3000000 "demo" "demo123" (mkInst default_db false)
     = Blocked (mkInst (update_last_login 3000000 2 default_db) true).
Proof. repeat split. Qed.

(** C2, amended.  Authentication does not consult [expires_at]: a subscriber
    whose [expires_at] is in the past, who is active and whose credentials
    match, is selected all the same.  [XtreamCodesServer.authenticate_user]
    returns the subscriber's row; the credentials query of
    [IPTVDatabase.authenticate_user] selects the subscriber's row and the
    call commits the [last_login] update. *)
Theorem authentication_ignores_expiry
    (sha256_hex md5_hex : string -> string) (now : Z)
    (db : DB) (xdb : XtreamCodesServer.XDB) (username password : string)
    (user : User.row) (xuser : XtreamCodesServer.user_row)
    (expiry : Z) (xexpiry : string) :
  unique_usernames db -> In user (users db) ->
  User.username user = username ->
  User.password user = sha256_hex password ->
  User.is_active user = 1 ->
  User.expires_at user = Some expiry -> expiry < now ->
  xtream_unique_usernames xdb -> In xuser (XtreamCodesServer.users_xtream xdb) ->
  XtreamCodesServer.username xuser = username ->
  XtreamCodesServer.password xuser = md5_hex password ->
  XtreamCodesServer.is_active xuser = 1 ->
  XtreamCodesServer.expires_at xuser = Some xexpiry ->
  XtreamCodesServer.authenticate_user md5_hex xdb username password = Some xuser
  /\ select_credentials username (sha256_hex password) db = Some user
  /\ store (final (authenticate_user sha256_hex now username password (mkInst db false)))
     = update_last_login now (User.id user) db.
Proof.
  intros Hnd Hin Hu Hp Ha _ _ Hxnd Hxin Hxu Hxp Hxa _.
  pose proof (select_credentials_found _ _ _ _ Hnd Hin Hu Hp Ha) as Hsel.
  repeat split.
  - now apply xtream_authenticate_found.
  - exact Hsel.
  - now rewrite (authenticate_user_match _ _ _ _ _ _ Hsel).
Qed.

Lemma authentication_ignores_expiry_witness :
  XtreamCodesServer.authenticate_user demo_digest expired_xdb "demo" "demo" <> None
  /\ select_credentials "demo" (demo_digest "demo") 
       (with_users [User.mk 1 "demo" (demo_digest "demo") None "user" 1 (Some 1)
                      0 (Some 10) None 0 None] 1 empty_db) <> None.
Proof.
  destruct (authentication_ignores_expiry demo_digest demo_digest 20
              (with_users [User.mk 1 "demo" (demo_digest "demo") None "user" 1
                             (Some 1) 0 (Some 10) None 0 None] 1 empty_db)
              expired_xdb "demo" "demo"
              (User.mk 1 "demo" (demo_digest "demo") None "user" 1 (Some 1)
                 0 (Some 10) None 0 None)
              (XtreamCodesServer.mk_user 1 "demo" (demo_digest "demo") 1 (Some 1)
                 (Some "2023-01-01 00:00:00") (Some "2023-01-31 00:00:00") 0)
              10 "2023-01-31 00:00:00") as (H1 & H2 & _).
  - repeat constructor. simpl. tauto.
  - simpl. auto.
  - reflexivity.
  - reflexivity.
  - reflexivity.
  - reflexivity.
  - reflexivity.
  - repeat constructor. simpl. tauto.
  - simpl. auto.
  - reflexivity.
  - reflexivity.
  - reflexivity.
  - reflexivity.
  - rewrite H1, H2. split; discriminate.
Defined.

(** C10.  [create_user] holds [self.lock] when it calls [log_action], which
    takes the same lock: the row is inserted and committed, and the call
    never returns.  The credentials query does find the new row, but
    [authenticate_user] ends the same way, on the same object (the lock is
    still held) and on a second object opened on the file. *)
Theorem create_user_then_authenticate_blocks
    (sha256_hex : string -> string) (str_datetime : Z -> string)
    (now now' : Z) (username password : string) (email : option string)
    (role : string) (max_connections : Z) (db : DB) :
  users_conflict username (sha256_hex (username +:+ str_datetime now)) db = false ->
  let key := sha256_hex (username +:+ str_datetime now) in
  let created := User.mk (users_seq db + 1) username (sha256_hex password) email
                   role 1 (Some max_connections) now None None 0 (Some key) in
  let db1 := insert_user now username (sha256_hex password) email role
               max_connections key db in
  create_user sha256_hex str_datetime now username password email role
    max_connections (mkInst db false) = Blocked (mkInst db1 true)
  /\ select_credentials username (sha256_hex password) db1 = Some created
  /\ authenticate_user sha256_hex now' username password (mkInst db1 true)
     = Blocked (mkInst db1 true)
  /\ authenticate_user sha256_hex now' username password (mkInst db1 false)
     = Blocked (mkInst (update_last_login now' (users_seq db + 1) db1) true).
Proof.
  intros Hfree key created db1.
  pose proof (select_credentials_after_insert sha256_hex now username password
                email role max_connections key db Hfree) as Hsel.
  repeat split.
  - now apply create_user_blocks.
  - exact Hsel.
  - now rewrite (authenticate_user_match _ _ _ _ _ _ Hsel).
Qed.

Lemma create_user_then_authenticate_blocks_witness :
  create_user demo_digest demo_datetime 0 "test" "test123"
    (Some "test@example.com") "user" 1 (mkInst default_db false)
  = Blocked (mkInst (insert_user 0 "test" (demo_digest "test123")
                       (Some "test@example.com") "user" 1
                       (demo_digest ("test" +:+ demo_datetime 0)) default_db) true).
Proof.
  apply (create_user_then_authenticate_blocks demo_digest demo_datetime 0 1
           "test" "test123" (Some "test@example.com") "user" 1 default_db).
  reflexivity.
Defined.

(** ** Claims on the [player_api] handler *)

Lemma first_param_delete_other (params : gmap string (list string)) (k k' : string) :
  k <> k' ->
  XtreamCodesServer.first_param (delete k params) k'
  = XtreamCodesServer.first_param params k'.
Proof.
  intros Hne. unfold XtreamCodesServer.first_param.
  now rewrite lookup_delete_ne.
Qed.

Lemma first_param_delete (params : gmap string (list string)) (k : string) :
  XtreamCodesServer.first_param (delete k params) k = Some EmptyString.
Proof.
  unfold XtreamCodesServer.first_param. now rewrite lookup_delete_eq.
Qed.

Lemma handle_api_request_fallthrough md5_hex db params action username password :
  XtreamCodesServer.first_param params "action" = Some action ->
  XtreamCodesServer.first_param params "username" = Some username ->
  XtreamCodesServer.first_param params "password" = Some password ->
  action <> "get_live_categories" -> action <> "get_live_streams" ->
  action <> "get_vod_categories" -> action <> "get_vod_streams" ->
  XtreamCodesServer.handle_api_request md5_hex db params
  = inl (match XtreamCodesServer.authenticate_user md5_hex db username password with
         | Some _ => XtreamCodesServer.get_user_info db username
         | None => XtreamCodesServer.negative_envelope
         end).
Proof.
  intros Ha Hu Hp H1 H2 H3 H4. unfold XtreamCodesServer.handle_api_request.
  rewrite Ha, Hu, Hp.
  destruct (XtreamCodesServer.authenticate_user md5_hex db username password);
    [|reflexivity].
  apply String.eqb_neq in H1, H2, H3, H4. now rewrite H1, H2, H3, H4.
Qed.

(** The user-info lookup of an authenticated user finds a row of that name. *)
Lemma get_user_info_authenticated md5_hex db username password user :
  XtreamCodesServer.authenticate_user md5_hex db username password = Some user ->
  exists row,
    In row (XtreamCodesServer.users_xtream db)
    /\ XtreamCodesServer.username row = username
    /\ XtreamCodesServer.get_user_info db username
       = XtreamCodesServer.user_info_response row.
Proof.
  intros Hauth. unfold XtreamCodesServer.get_user_info.
  destruct (find _ (XtreamCodesServer.users_xtream db)) as [row|] eqn:Hrow.
  - apply find_some in Hrow as [Hin Hname]. apply String.eqb_eq in Hname.
    exists row. auto.
  - exfalso. apply find_some in Hauth as [Hin Hm].
    apply andb_prop in Hm as [Hm _]. apply andb_prop in Hm as [Hm _].
    pose proof (find_none _ _ Hrow user Hin) as Hn. simpl in Hn. congruence.
Qed.

(** C3, as stated, fails: the default account asks for the unknown action
    [get_series] and receives its positive user-info object, [auth] 1. *)
Lemma unknown_action_answers_user_info :
  XtreamCodesServer.handle_api_request demo_digest default_xdb
    (query "get_series" "demo" "demo")
  = inl (XtreamCodesServer.user_info_response
           (XtreamCodesServer.mk_user 1 "demo" (demo_digest "demo") 1 (Some 1)
              (Some "2023-01-01 00:00:00") None 0))
  /\ XtreamCodesServer.handle_api_request demo_digest default_xdb
       (query "get_series" "demo" "demo")
     <> inl XtreamCodesServer.negative_envelope.
Proof. split; [reflexivity|discriminate]. Qed.

(** C3, amended.  A [player_api] request whose action is none of the four
    known ones is answered like a request without action, and never with an
    error: with the negative envelope when the credentials fail, and with the
    positive user-info object ([auth] 1) of the named user when they
    pass. *)
Theorem unknown_action_is_user_info
    (md5_hex : string -> string) (db : XtreamCodesServer.XDB)
    (params : gmap string (list string)) (action username password : string) :
  XtreamCodesServer.first_param params "action" = Some action ->
  XtreamCodesServer.first_param params "username" = Some username ->
  XtreamCodesServer.first_param params "password" = Some password ->
  action <> "get_live_categories" -> action <> "get_live_streams" ->
  action <> "get_vod_categories" -> action <> "get_vod_streams" ->
  XtreamCodesServer.handle_api_request md5_hex db params
    = XtreamCodesServer.handle_api_request md5_hex db (delete "action" params)
  /\ (XtreamCodesServer.authenticate_user md5_hex db username password = None ->
      XtreamCodesServer.handle_api_request md5_hex db params
      = inl XtreamCodesServer.negative_envelope)
  /\ (forall user,
      XtreamCodesServer.authenticate_user md5_hex db username password = Some user ->
      exists row,
        In row (XtreamCodesServer.users_xtream db)
        /\ XtreamCodesServer.username row = username
        /\ XtreamCodesServer.handle_api_request md5_hex db params
           = inl (XtreamCodesServer.user_info_response row)).
Proof.
  intros Ha Hu Hp H1 H2 H3 H4.
  pose proof (handle_api_request_fallthrough md5_hex db params action username
                password Ha Hu Hp H1 H2 H3 H4) as Hreq.
  repeat split.
  - rewrite Hreq. symmetry.
    apply (handle_api_request_fallthrough md5_hex db _ EmptyString username password).
    + apply first_param_delete.
    + rewrite first_param_delete_other; [assumption|discriminate].
    + rewrite first_param_delete_other; [assumption|discriminate].
    + discriminate.
    + discriminate.
    + discriminate.
    + discriminate.
  - intros Hauth. now rewrite Hreq, Hauth.
  - intros user Hauth. rewrite Hreq, Hauth.
    destruct (get_user_info_authenticated _ _ _ _ _ Hauth) as (row & Hin & Hn & E).
    exists row. rewrite E. auto.
Qed.

Lemma unknown_action_is_user_info_witness :
  XtreamCodesServer.handle_api_request demo_digest default_xdb
    (query "get_series" "demo" "demo")
  = XtreamCodesServer.handle_api_request demo_digest default_xdb
      (delete "action" (query "get_series" "demo" "demo")).
Proof.
  apply (unknown_action_is_user_info demo_digest default_xdb
           (query "get_series" "demo" "demo") "get_series" "demo" "demo").
  - reflexivity.
  - reflexivity.
  - reflexivity.
  - discriminate.
  - discriminate.
  - discriminate.
  - discriminate.
Defined.

(** ** Claims on statistics *)

Lemma bind_returned {A B} (m : M A) (k : A -> M B) (s s' : Inst) (v : A) :
  m s = Returned v s' -> (m ≫= k) s = k v s'.
Proof. intros H. unfold mbind, M_bind, bind. now rewrite H. Qed.

Lemma sql_eq_int_some (a : option Z) (x : Z) :
  sql_eq_int a (Some x) = opt_int_eqb a (Some x).
Proof. now destruct a. Qed.

Lemma sql_eq_int_null (a : option Z) : sql_eq_int a None = false.
Proof. now destruct a. Qed.

Lemma add_statistic_insert today user_id stream_id bytes viewers db :
  select_statistic today user_id stream_id db = None ->
  add_statistic today user_id stream_id bytes viewers (mkInst db false)
  = Returned tt (mkInst (insert_statistic today user_id stream_id viewers bytes db) false).
Proof. intros H. unfold add_statistic. run_method. now rewrite H. Qed.

Lemma add_statistic_update today user_id stream_id bytes viewers db existing :
  select_statistic today user_id stream_id db = Some existing ->
  add_statistic today user_id stream_id bytes viewers (mkInst db false)
  = Returned tt (mkInst (update_statistic existing viewers bytes db) false).
Proof. intros H. unfold add_statistic. run_method. now rewrite H. Qed.


Lemma map_id_on {A} (f : A -> A) (l : list A) :
  Forall (fun x => f x = x) l -> map f l = l.
Proof. induction 1 as [|x l Hx _ IH]; simpl; congruence. Qed.



(** The invariant on the keys holds in a fresh store and is kept by every
    call. *)
Lemma add_statistic_keeps_wf today user_id stream_id bytes viewers db :
  statistics_wf db ->
  statistics_wf
    (store (final (add_statistic today user_id stream_id bytes viewers
                     (mkInst db false)))).
Proof.
  intros Hwf. unfold statistics_wf in *.
  destruct (select_statistic today user_id stream_id db) as [existing|] eqn:Hsel.
  - rewrite (add_statistic_update _ _ _ _ _ _ _ Hsel). simpl.
    apply List.Forall_map. eapply List.Forall_impl; [|exact Hwf].
    intros r Hr. now destruct (Stat.stat_id r =? existing).
  - rewrite (add_statistic_insert _ _ _ _ _ _ Hsel). simpl.
    apply List.Forall_app. split.
    + eapply List.Forall_impl; [|exact Hwf]. simpl. intros; lia.
    + repeat constructor. simpl. lia.
Qed.



Lemma select_statistic_null_user today stream_id db :
  select_statistic today None stream_id db = None.
Proof.
  unfold select_statistic. rewrite find_none_of_forall; [reflexivity|].
  intros r _. now rewrite sql_eq_int_null, andb_false_r.
Qed.

Lemma select_statistic_null_stream today user_id db :
  select_statistic today user_id None db = None.
Proof.
  unfold select_statistic. rewrite find_none_of_forall; [reflexivity|].
  intros r _. now rewrite sql_eq_int_null, andb_false_r.
Qed.

Lemma stat_rows_insert today user_id stream_id viewers bytes db :
  stat_rows today user_id stream_id
    (insert_statistic today user_id stream_id viewers bytes db)
  = stat_rows today user_id stream_id db
      ++ [Stat.mk (statistics_seq db + 1) today user_id stream_id viewers bytes viewers].
Proof.
  unfold stat_rows, insert_statistic. simpl. rewrite List.filter_app. simpl.
  unfold has_key at 2. simpl. rewrite String.eqb_refl.
  destruct user_id, stream_id; simpl; now rewrite ?Z.eqb_refl.
Qed.

(** C5 fails where an id is absent.  The existence check compares [user_id]
    with [NULL] by [=], which no row satisfies, so the call takes the insert
    branch every time: two calls without a subscriber add two rows for the
    one (date, NULL, stream) key. *)
Theorem null_key_statistics_duplicate
    (today : string) (stream_id : option Z) (b1 v1 b2 v2 : Z) (db : DB) :
  exists db',
    (add_statistic today None stream_id b1 v1;;
     add_statistic today None stream_id b2 v2) (mkInst db false)
    = Returned tt (mkInst db' false)
    /\ stat_rows today None stream_id db'
       = stat_rows today None stream_id db
           ++ [Stat.mk (statistics_seq db + 1) today None stream_id v1 b1 v1;
               Stat.mk (statistics_seq db + 2) today None stream_id v2 b2 v2].
Proof.
  pose proof (add_statistic_insert today None stream_id b1 v1 db
                (select_statistic_null_user _ _ _)) as E1.
  pose proof (add_statistic_insert today None stream_id b2 v2 _
                (select_statistic_null_user today stream_id
                   (insert_statistic today None stream_id v1 b1 db))) as E2.
  eexists. split.
  - rewrite (bind_returned _ _ _ _ _ E1). exact E2.
  - rewrite !stat_rows_insert, <- app_assoc. simpl.
    replace (statistics_seq db + 1 + 1) with (statistics_seq db + 2) by lia.
    reflexivity.
Qed.

(** On a fresh database, two calls that name a stream but no subscriber. *)
Example null_key_statistics_duplicate_fresh :
  statistics (store (final
    ((add_statistic "2026-11-04" None (Some 5) 0 3;;
      add_statistic "2026-11-04" None (Some 5) 0 3) (mkInst empty_db false))))
  = [Stat.mk 1 "2026-11-04" None (Some 5) 3 0 3;
     Stat.mk 2 "2026-11-04" None (Some 5) 3 0 3].
Proof. reflexivity. Qed.

Lemma filter_map_length {A} (p : A -> bool) (f : A -> A) (l : list A) :
  (forall x, p (f x) = p x) ->
  length (List.filter p (map f l)) = length (List.filter p l).
Proof.
  intros H. induction l as [|a l IH]; simpl; [reflexivity|].
  rewrite H. destruct (p a); simpl; congruence.
Qed.

(** Where both ids are present the upsert does what C5 says: a key that has
    at most one row keeps at most one, whatever call is made. *)
Lemma add_statistic_keeps_full_keys_unique today user_id stream_id bytes viewers db :
  (forall d u s, (length (stat_rows d (Some u) (Some s) db) <= 1)%nat) ->
  forall d u s,
    (length (stat_rows d (Some u) (Some s)
       (store (final (add_statistic today user_id stream_id bytes viewers
                        (mkInst db false))))) <= 1)%nat.
Proof.
  intros Huniq d u s.
  destruct (select_statistic today user_id stream_id db) as [existing|] eqn:Hsel.
  - rewrite (add_statistic_update _ _ _ _ _ _ _ Hsel). simpl.
    unfold stat_rows, update_statistic. simpl.
    rewrite filter_map_length; [apply Huniq|].
    intros x. now destruct (Stat.stat_id x =? existing).
  - rewrite (add_statistic_insert _ _ _ _ _ _ Hsel). simpl.
    unfold stat_rows, insert_statistic. simpl.
    rewrite List.filter_app, length_app. simpl.
    destruct (has_key d (Some u) (Some s)
                (Stat.mk (statistics_seq db + 1) today user_id stream_id viewers
                   bytes viewers)) eqn:Hk; simpl.
    + unfold has_key in Hk. simpl in Hk.
      apply andb_prop in Hk as [Hk Hs]. apply andb_prop in Hk as [Hd Hu].
      apply String.eqb_eq in Hd. subst d.
      destruct user_id as [u'|]; [|discriminate].
      destruct stream_id as [s'|]; [|discriminate].
      simpl in Hu, Hs. apply Z.eqb_eq in Hu, Hs. subst u' s'.
      unfold select_statistic in Hsel.
      destruct (find _ (statistics db)) as [r|] eqn:Hfind; [discriminate|].
      assert (List.filter (has_key today (Some u) (Some s)) (statistics db) = [])
        as ->; [|simpl; lia].
      destruct (List.filter _ (statistics db)) as [|r l] eqn:Hf; [reflexivity|].
      assert (In r (r :: l)) as Hr by (left; reflexivity).
      rewrite <- Hf in Hr. apply filter_In in Hr as [Hin Hkey].
      pose proof (find_none _ _ Hfind r Hin) as Hn. simpl in Hn.
      rewrite !sql_eq_int_some in Hn. unfold has_key in Hkey. congruence.
    + specialize (Huniq d u s). unfold stat_rows in Huniq. lia.
Qed.

(** ** Session calls and the store *)

Section SessionFacts.

Variable sha256_hex : string -> string.
Variable str_datetime : Z -> string.

(** What a call leaves in the store, in terms of the SQL statements. *)
Lemma create_session_store now user_id stream_id client_ip user_agent s :
  store (final (create_session sha256_hex str_datetime now user_id stream_id
                  client_ip user_agent s))
  = if lock_held s
       || session_exists (new_session_id sha256_hex str_datetime now user_id client_ip)
            (store s)
    then store s
    else insert_session now (new_session_id sha256_hex str_datetime now user_id client_ip)
           user_id stream_id client_ip user_agent (store s).
Proof.
  destruct s as [db [|]]; [reflexivity|].
  unfold create_session. run_method.
  now destruct (session_exists _ db).
Qed.

Lemma update_session_store now session_id bytes_sent s :
  store (final (update_session now session_id bytes_sent s))
  = if lock_held s then store s
    else touch_session now session_id bytes_sent (store s).
Proof. now destruct s as [db [|]]. Qed.

Lemma check_user_connections_store user_id s :
  store (final (check_user_connections user_id s)) = store s.
Proof.
  destruct s as [db [|]]; [reflexivity|].
  unfold check_user_connections. run_method.
  now destruct (select_max_connections user_id db).
Qed.

Lemma cleanup_old_data_store now days s :
  store (final (cleanup_old_data now days s))
  = if lock_held s then store s
    else delete_old_logs (now - days * 86400)
           (expire_sessions (now - days * 86400) (store s)).
Proof. now destruct s as [db [|]]. Qed.

Lemma final_then_unit {A} (m : M A) (s : Inst) :
  store (final ((m;; mret tt) s)) = store (final (m s)).
Proof. unfold mbind, M_bind, bind. now destruct (m s). Qed.

(** A property of the store that the four statements keep is kept by every
    run, on any number of objects. *)
Lemma run_keeps (P : DB -> Prop) :
  (forall now sid uid stream ip ua db,
      P db -> session_exists sid db = false ->
      P (insert_session now sid uid stream ip ua db)) ->
  (forall now sid bytes db, P db -> P (touch_session now sid bytes db)) ->
  (forall cutoff db, P db -> P (delete_old_logs cutoff (expire_sessions cutoff db))) ->
  forall e w, P (file w) -> P (file (step sha256_hex str_datetime e w)).
Proof.
  intros Hins Htouch Hclean [i now c] w HP.
  unfold step, call_on. simpl.
  destruct c as [uid stream ip ua|sid bytes|uid|days]; simpl.
  - rewrite final_then_unit, create_session_store. simpl.
    destruct (bool_decide (i ∈ held w)); simpl; [assumption|].
    destruct (session_exists _ (file w)) eqn:E; [assumption|now apply Hins].
  - rewrite update_session_store. simpl.
    destruct (bool_decide (i ∈ held w)); [assumption|now apply Htouch].
  - rewrite final_then_unit, check_user_connections_store. assumption.
  - rewrite cleanup_old_data_store. simpl.
    destruct (bool_decide (i ∈ held w)); [assumption|now apply Hclean].
Qed.

End SessionFacts.

(** ** Claims on sessions *)

Lemma find_app_some {A} (f : A -> bool) (l l' : list A) (r : A) :
  find f l = Some r -> find f (l ++ l') = Some r.
Proof.
  induction l as [|a l IH]; simpl; [discriminate|].
  now destruct (f a).
Qed.

Lemma find_map_fixed {A} (p : A -> bool) (f : A -> A) (l : list A) (r : A) :
  (forall x, p (f x) = p x) -> f r = r ->
  find p l = Some r -> find p (map f l) = Some r.
Proof.
  intros Hp Hr. induction l as [|a l IH]; simpl; [discriminate|].
  rewrite Hp. destruct (p a); [|assumption].
  intros [= ->]. now rewrite Hr.
Qed.

Lemma deactivate_inactive (r : Session.row) :
  Session.is_active r = 0 -> Session.deactivate r = r.
Proof. destruct r; simpl; now intros ->. Qed.

Lemma find_session_insert now sid' uid stream ip ua sid r db :
  find_session sid db = Some r ->
  find_session sid (insert_session now sid' uid stream ip ua db) = Some r.
Proof. apply find_app_some. Qed.

Lemma find_session_touch now sid' bytes sid r db :
  Session.is_active r = 0 ->
  find_session sid db = Some r ->
  find_session sid (touch_session now sid' bytes db) = Some r.
Proof.
  intros Hr. apply find_map_fixed.
  - intros x. now destruct (_ && _).
  - rewrite Hr. simpl. now rewrite andb_false_r.
Qed.

Lemma find_session_cleanup cutoff sid r db :
  Session.is_active r = 0 ->
  find_session sid db = Some r ->
  find_session sid (delete_old_logs cutoff (expire_sessions cutoff db)) = Some r.
Proof.
  intros Hr. apply find_map_fixed.
  - intros x. now destruct (_ <? _).
  - destruct (_ <? _); [now apply deactivate_inactive|reflexivity].
Qed.

(** C9.  A session whose [is_active] is 0 is left as it is by every later
    session call, on any object and at any time: after each call of the run
    its row is the same row, so [is_active] is still 0 and [last_active] and
    [bytes_sent] are unchanged. *)
Theorem terminal_sessions_stay_terminal
    (sha256_hex : string -> string) (str_datetime : Z -> string)
    (events : list event) (w : World) (session_id : string) (r : Session.row) :
  find_session session_id (file w) = Some r ->
  Session.is_active r = 0 ->
  Forall (fun w' => find_session session_id (file w') = Some r)
         (trace sha256_hex str_datetime events w).
Proof.
  intros Hfind Hr. revert w Hfind.
  induction events as [|e events IH]; intros w Hfind; simpl.
  - now constructor.
  - constructor; [assumption|]. apply IH.
    apply (run_keeps sha256_hex str_datetime
             (fun db => find_session session_id db = Some r)); auto.
    + intros. now apply find_session_insert.
    + intros. now apply find_session_touch.
    + intros. now apply find_session_cleanup.
Qed.

Lemma terminal_sessions_stay_terminal_witness :
  Forall (fun w' => find_session "5e55" (file w') = Some closed_session)
         (trace demo_digest demo_datetime later_calls
            (mkWorld store_with_closed_session ∅)).
Proof.
  apply (terminal_sessions_stay_terminal demo_digest demo_datetime later_calls
           (mkWorld store_with_closed_session ∅) "5e55" closed_session).
  - reflexivity.
  - reflexivity.
Defined.

(** The report of [check_user_connections] in terms of the two queries. *)
Lemma check_user_connections_result user_id db :
  result_of (check_user_connections user_id (mkInst db false))
  = option_map (fun m => (count_active user_id db, int_or m 1))
      (select_max_connections user_id db).
Proof.
  unfold check_user_connections. run_method.
  now destruct (select_max_connections user_id db).
Qed.

Lemma filter_map_length_le {A} (p : A -> bool) (f : A -> A) (l : list A) :
  (forall x, p (f x) = true -> p x = true) ->
  (length (List.filter p (map f l)) <= length (List.filter p l))%nat.
Proof.
  intros H. induction l as [|a l IH]; simpl; [lia|].
  destruct (p (f a)) eqn:E.
  - rewrite (H a E). simpl. lia.
  - destruct (p a); simpl; lia.
Qed.

Lemma count_active_insert now sid uid stream ip ua user_id db :
  count_active user_id (insert_session now sid uid stream ip ua db)
  = count_active user_id db + (if uid =? user_id then 1 else 0).
Proof.
  unfold count_active, insert_session. simpl.
  rewrite List.filter_app, length_app. simpl.
  destruct (uid =? user_id); simpl; lia.
Qed.

Lemma count_active_touch now sid bytes user_id db :
  count_active user_id (touch_session now sid bytes db) = count_active user_id db.
Proof.
  unfold count_active, touch_session. simpl. f_equal.
  apply filter_map_length. intros x.
  now destruct (String.eqb (Session.session_id x) sid && (Session.is_active x =? 1)).
Qed.

Lemma count_active_cleanup cutoff user_id db :
  count_active user_id (delete_old_logs cutoff (expire_sessions cutoff db))
  <= count_active user_id db.
Proof.
  unfold count_active, delete_old_logs, expire_sessions. simpl.
  apply inj_le, filter_map_length_le.
  intros x. destruct (_ <? _); [|auto]. simpl. now rewrite andb_false_r.
Qed.

Lemma within_cap_iff user_id db :
  within_cap user_id db <->
  forall m, select_max_connections user_id db = Some m ->
            count_active user_id db <= int_or m 1.
Proof.
  unfold within_cap. rewrite check_user_connections_result.
  destruct (select_max_connections user_id db) as [m|]; simpl; split.
  - intros H m' [= <-]. now apply (H _ _ eq_refl).
  - intros H a c [= <- <-]. now apply H.
  - discriminate.
  - discriminate.
Qed.

Lemma under_cap_spec user_id db :
  under_cap user_id db = true ->
  exists m, select_max_connections user_id db = Some m
            /\ count_active user_id db < int_or m 1.
Proof.
  unfold under_cap. rewrite check_user_connections_result.
  destruct (select_max_connections user_id db) as [m|]; simpl; [|discriminate].
  intros H. exists m. split; [reflexivity|lia].
Qed.

(** One call keeps every subscriber within the cap, provided that, if it is a
    [create_session], the check for its subscriber is current. *)
Lemma step_within_cap sha256_hex str_datetime (e : event) (w : World) :
  (forall uid, within_cap uid (file w)) ->
  match what e with
  | CreateSession user_id _ _ _ => under_cap user_id (file w) = true
  | _ => True
  end ->
  forall uid, within_cap uid (file (step sha256_hex str_datetime e w)).
Proof.
  intros Hinv Hguard uid. specialize (Hinv uid).
  rewrite within_cap_iff in *.
  destruct e as [i now c]. unfold step, call_on. simpl in *.
  destruct c as [u stream ip ua|sid bytes|u|days]; simpl.
  - rewrite final_then_unit, create_session_store. simpl.
    destruct (bool_decide (i ∈ held w)); simpl; [assumption|].
    destruct (session_exists _ (file w)); [assumption|].
    intros m Hm. rewrite count_active_insert.
    change (select_max_connections uid (file w) = Some m) in Hm.
    destruct (Z.eqb_spec u uid) as [->|_].
    + apply under_cap_spec in Hguard as (m' & Hm' & Hlt).
      assert (m' = m) as -> by congruence. lia.
    + specialize (Hinv m Hm). lia.
  - rewrite update_session_store. simpl.
    destruct (bool_decide (i ∈ held w)); [assumption|].
    intros m Hm. rewrite count_active_touch. now apply Hinv.
  - rewrite final_then_unit, check_user_connections_store. assumption.
  - rewrite cleanup_old_data_store. simpl.
    destruct (bool_decide (i ∈ held w)); [assumption|].
    intros m Hm.
    pose proof (count_active_cleanup (now - days * 86400) uid (file w)).
    change (select_max_connections uid (file w) = Some m) in Hm.
    specialize (Hinv m Hm). lia.
Qed.

(** C1, as stated, fails.  Two objects on one file check the demonstration
    account, each is told 0 of 1, and each then opens a session: both inserts
    are committed, and a check made afterwards reports 2 active sessions
    against a cap of 1. *)
Lemma interleaved_admissions_exceed_cap :
  result_of (check_user_connections 2 (view 0 (mkWorld default_db ∅))) = Some (0, 1)
  /\ result_of (check_user_connections 2
       (view 1 (run demo_digest demo_datetime (firstn 1 two_clients)
                  (mkWorld default_db ∅)))) = Some (0, 1)
  /\ result_of (check_user_connections 2
       (view 2 (run demo_digest demo_datetime two_clients
                  (mkWorld default_db ∅)))) = Some (2, 1)
  /\ ~ within_cap 2 (file (run demo_digest demo_datetime two_clients
                             (mkWorld default_db ∅))).
Proof.
  repeat split; try (vm_compute; reflexivity).
  intros H. specialize (H 2 1 ltac:(vm_compute; reflexivity)). lia.
Qed.

(** C1, amended.  [create_session] enforces no cap and
    [check_user_connections] only reports.  If every subscriber is within the
    reported cap at the start, and every [create_session] of the run is made
    in a state in which the check for its subscriber reports a count below
    the cap, then every subscriber is within the cap after every call of the
    run, whatever objects the calls are made on. *)
Theorem cap_kept_by_current_checks
    (sha256_hex : string -> string) (str_datetime : Z -> string)
    (events : list event) (w : World) :
  (forall uid, within_cap uid (file w)) ->
  admissions_current (step sha256_hex str_datetime) events w ->
  Forall (fun w' => forall uid, within_cap uid (file w'))
         (trace sha256_hex str_datetime events w).
Proof.
  revert w. induction events as [|e events IH]; intros w Hinv Hadm; simpl.
  - now constructor.
  - destruct Hadm as [Hguard Hadm]. constructor; [assumption|].
    apply IH; [|assumption].
    now apply step_within_cap.
Qed.

Lemma cap_kept_by_current_checks_witness :
  Forall (fun w' => forall uid, within_cap uid (file w'))
         (trace demo_digest demo_datetime one_client (mkWorld default_db ∅)).
Proof.
  apply (cap_kept_by_current_checks demo_digest demo_datetime one_client
           (mkWorld default_db ∅)).
  - intros uid. cbn [file]. apply within_cap_iff. intros m Hm.
    assert (count_active uid default_db = 0) as -> by reflexivity.
    unfold select_max_connections in Hm.
    destruct (find _ (users default_db)) as [u|] eqn:F; [|discriminate].
    apply find_some in F as [Hin _]. injection Hm as <-.
    vm_compute in Hin. destruct Hin as [<-|[<-|[]]]; simpl; lia.
  - simpl. repeat split.
Defined.

(** ** The playlist as a list of items *)

Lemma append_assoc (a b c : string) : (a +:+ b) +:+ c = a +:+ (b +:+ c).
Proof.
  induction a as [|x a IH]; [reflexivity|].
  change (String x ((a +:+ b) +:+ c) = String x (a +:+ (b +:+ c))).
  now rewrite IH.
Qed.

Lemma append_empty_r (a : string) : a +:+ EmptyString = a.
Proof.
  induction a as [|x a IH]; [reflexivity|].
  change (String x (a +:+ EmptyString) = String x a). now rewrite IH.
Qed.

Lemma render_app fmt (l l' : list item) :
  render fmt (l ++ l') = render fmt l +:+ render fmt l'.
Proof.
  induction l as [|i l IH]; simpl; [reflexivity|].
  now rewrite IH, append_assoc.
Qed.

Lemma opt_str_eqb_eq (a b : option string) : opt_str_eqb a b = true -> a = b.
Proof.
  destruct a, b; simpl; try discriminate; [|reflexivity].
  intros H. apply String.eqb_eq in H. congruence.
Qed.

(** The loop of [generate_m3u_playlist] appends the items of the streams. *)
Lemma playlist_loop fmt (streams : list Stream.row) (text : string)
    (current : option string) :
  fst (fold_left (playlist_step fmt) streams (text, current))
  = text +:+ render fmt (playlist_items current streams).
Proof.
  revert text current. induction streams as [|s streams IH]; intros text current.
  - simpl. now rewrite append_empty_r.
  - cbn [fold_left playlist_items]. unfold playlist_step at 2.
    destruct (opt_str_eqb (Stream.category_name s) current) eqn:E; cbn [negb].
    + apply opt_str_eqb_eq in E. subst current.
      destruct (String.eqb fmt "ts") eqn:F; rewrite IH;
        cbn [render fold_right render_item app];
        unfold entry_block; rewrite F;
        repeat rewrite append_assoc; reflexivity.
    + destruct (String.eqb fmt "ts") eqn:F; rewrite IH;
        cbn [render fold_right render_item app];
        unfold entry_block, group_marker; rewrite F;
        repeat rewrite append_assoc; reflexivity.
Qed.

Lemma generate_m3u_playlist_items generated user_id fmt db :
  generate_m3u_playlist generated user_id fmt (mkInst db false)
  = Returned
      (playlist_header generated user_id
         +:+ render fmt (playlist_items (Some EmptyString) (select_playlist user_id db)))
      (mkInst db false).
Proof.
  unfold generate_m3u_playlist. run_method. now rewrite playlist_loop.
Qed.

(** ** The order of the playlist query *)

Section OrderBy.

Context {A : Type} (le : A -> A -> bool).
Hypothesis le_total : forall a b, le a b = true \/ le b a = true.

Lemma insert_by_perm (x : A) (l : list A) : Permutation (insert_by le x l) (x :: l).
Proof.
  induction l as [|y l IH]; simpl; [reflexivity|].
  destruct (le x y); [reflexivity|].
  rewrite IH. apply perm_swap.
Qed.

Lemma order_by_perm (l : list A) : Permutation (order_by le l) l.
Proof.
  induction l as [|x l IH]; simpl; [reflexivity|].
  rewrite insert_by_perm. now constructor.
Qed.

Lemma insert_by_sorted (x : A) (l : list A) :
  Sorted (fun a b => le a b = true) l ->
  Sorted (fun a b => le a b = true) (insert_by le x l).
Proof using le_total.
  induction 1 as [|y l Hl IH Hhd]; simpl; [repeat constructor|].
  destruct (le x y) eqn:E.
  - repeat constructor; assumption.
  - constructor; [assumption|].
    assert (le y x = true) as Hyx by (destruct (le_total x y); congruence).
    destruct l as [|z l]; simpl in *; [now constructor|].
    destruct (le x z); constructor; [assumption|].
    now inversion Hhd.
Qed.

Lemma order_by_sorted (l : list A) :
  Sorted (fun a b => le a b = true) (order_by le l).
Proof using le_total.
  induction l as [|x l IH]; simpl; [constructor|]. now apply insert_by_sorted.
Qed.

End OrderBy.


Lemma compare_nullable_antisym (a b : option string) :
  compare_nullable a b = CompOpp (compare_nullable b a).
Proof. destruct a, b; simpl; auto using String.compare_antisym. Qed.

Lemma playlist_order_total db (s t : Stream.row) :
  playlist_order db s t = true \/ playlist_order db t s = true.
Proof.
  unfold playlist_order.
  rewrite (compare_nullable_antisym (joined_category_name db t)).
  destruct (compare_nullable _ _); simpl; auto using String.leb_total.
Qed.

(** The result of the playlist query: the subscriber's active streams, in
    the order of (joined category name, stream name). *)
Lemma select_playlist_sorted user_id db :
  Sorted (fun s t => playlist_order db s t = true) (select_playlist user_id db)
  /\ Permutation (select_playlist user_id db)
       (List.filter (owned_active user_id) (live_streams db)).
Proof.
  split.
  - apply order_by_sorted, playlist_order_total.
  - apply order_by_perm.
Qed.


(** ** Claims on the playlist *)






Lemma playlist_items_entry (s : Stream.row) (streams : list Stream.row)
    (current : option string) :
  In s streams ->
  exists before after, playlist_items current streams = before ++ Entry s :: after.
Proof.
  revert current. induction streams as [|t streams IH]; intros current; [contradiction|].
  intros [->|Hin]; simpl.
  - eexists _, _. reflexivity.
  - destruct (IH (Stream.category_name t) Hin) as (before & after & ->).
    eexists (_ ++ Entry t :: before), after.
    now rewrite <- app_assoc.
Qed.

(** C7, as stated, fails: nothing is escaped and nothing is rejected.  The
    stream name of [hostile_stream] holds a double quote and a line break;
    the playlist is returned, and the entry has four lines instead of two:
    the name closes the [tvg-name] attribute with its own quote and starts a
    line of its own, which reads as a URL. *)
Lemma playlist_copies_quotes_and_newlines :
  generate_m3u_playlist "2026-11-04 12:00:00" 2 "ts" (mkInst hostile_db false)
  = Returned
      (playlist_header "2026-11-04 12:00:00" 2
         +:+ group_marker (Some "News") +:+ entry_block "ts" hostile_stream)
      (mkInst hostile_db false)
  /\ lines (entry_block "ts" hostile_stream)
     = [ "#EXTINF:-1 tvg-id=" +:+ dq +:+ "news.id" +:+ dq
           +:+ " tvg-name=" +:+ dq +:+ "News" +:+ dq;
         "http://evil.example/x" +:+ dq +:+ " tvg-logo=" +:+ dq +:+ "logo.png" +:+ dq
           +:+ " group-title=" +:+ dq +:+ "News" +:+ dq +:+ ",News" +:+ dq;
         "http://evil.example/x";
         "http://localhost/live/0a1b2c3d";
         EmptyString ]
  /\ count_char "034"%char (entry_block "ts" hostile_stream) = 10%nat
  /\ count_char "010"%char (entry_block "ts" hostile_stream) = 4%nat.
Proof. repeat split. Qed.

(** C7, amended.  The generator neither escapes nor rejects anything: on a
    free lock it returns a playlist for every store, and for every active
    stream of the subscriber the playlist holds the entry of that stream with
    the display fields (stream name, category name, icon, EPG channel id)
    copied as they are stored, double quotes and line breaks included. *)
Theorem playlist_entries_are_verbatim
    (generated : string) (user_id : Z) (fmt : string) (db : DB) (s : Stream.row) :
  In s (live_streams db) ->
  owned_active user_id s = true ->
  exists before after,
    generate_m3u_playlist generated user_id fmt (mkInst db false)
    = Returned (before +:+ entry_block fmt s +:+ after) (mkInst db false).
Proof.
  intros Hin Hown.
  assert (In s (select_playlist user_id db)) as Hsel.
  { eapply Permutation_in.
    - symmetry. apply select_playlist_sorted.
    - apply filter_In. auto. }
  destruct (playlist_items_entry s _ (Some EmptyString) Hsel) as (l1 & l2 & E).
  exists (playlist_header generated user_id +:+ render fmt l1), (render fmt l2).
  rewrite generate_m3u_playlist_items, E, render_app.
  cbn [render fold_right render_item]. now rewrite !append_assoc.
Qed.

Lemma playlist_entries_are_verbatim_witness :
  exists before after,
    generate_m3u_playlist "2026-11-04 12:00:00" 2 "ts" (mkInst hostile_db false)
    = Returned (before +:+ entry_block "ts" hostile_stream +:+ after)
        (mkInst hostile_db false).
Proof.
  apply (playlist_entries_are_verbatim "2026-11-04 12:00:00" 2 "ts" hostile_db
           hostile_stream).
  - simpl. auto.
  - reflexivity.
Defined.

(** * Further properties of the code *)

(** ** Sessions *)

Lemma find_map_commute {A} (p : A -> bool) (f : A -> A) (l : list A) :
  (forall x, p (f x) = p x) ->
  find p (map f l) = option_map f (find p l).
Proof.
  intros Hp. induction l as [|a l IH]; simpl; [reflexivity|].
  rewrite Hp. now destruct (p a).
Qed.


Lemma with_sessions_same db : with_sessions (active_sessions db) db = db.
Proof. now destruct db. Qed.

Lemma update_session_returns now sid bytes db :
  update_session now sid bytes (mkInst db false)
  = Returned tt (mkInst (touch_session now sid bytes db) false).
Proof. reflexivity. Qed.





(** X2.  A report for a session id that the table does not hold, or whose
    session is not active, returns and writes nothing: the store is the
    same store. *)
Theorem update_session_ignores_unknown_and_closed
    (now : Z) (session_id : string) (bytes : Z) (db : DB) :
  (forall r, In r (active_sessions db) ->
             Session.session_id r = session_id -> Session.is_active r <> 1) ->
  update_session now session_id bytes (mkInst db false)
  = Returned tt (mkInst db false).
Proof.
  intros Hnone. rewrite update_session_returns. do 2 f_equal.
  unfold touch_session. rewrite map_id_on; [apply with_sessions_same|].
  apply List.Forall_forall. intros r Hr.
  destruct (String.eqb_spec (Session.session_id r) session_id) as [E|]; [|reflexivity].
  destruct (Z.eqb_spec (Session.is_active r) 1) as [E'|]; [|reflexivity].
  now destruct (Hnone r Hr E).
Qed.

Lemma update_session_ignores_unknown_and_closed_witness :
  update_session 5000000 "5e55" 77 (mkInst store_with_closed_session false)
  = Returned tt (mkInst store_with_closed_session false)
  /\ update_session 5000000 "none" 77 (mkInst store_with_closed_session false)
     = Returned tt (mkInst store_with_closed_session false).
Proof.
  split.
  - apply (update_session_ignores_unknown_and_closed 5000000 "5e55" 77
             store_with_closed_session).
    intros r [<-|[]] _. discriminate.
  - apply (update_session_ignores_unknown_and_closed 5000000 "none" 77
             store_with_closed_session).
    intros r [<-|[]]. discriminate.
Defined.





Lemma create_session_blocks sha256_hex str_datetime now uid stream ip ua db :
  session_exists (new_session_id sha256_hex str_datetime now uid ip) db = false ->
  create_session sha256_hex str_datetime now uid stream ip ua (mkInst db false)
  = Blocked (mkInst (insert_session now
                       (new_session_id sha256_hex str_datetime now uid ip)
                       uid stream ip ua db) true).
Proof. intros H. unfold create_session. run_method. now rewrite H. Qed.

Lemma create_session_collides sha256_hex str_datetime now uid stream ip ua db :
  session_exists (new_session_id sha256_hex str_datetime now uid ip) db = true ->
  create_session sha256_hex str_datetime now uid stream ip ua (mkInst db false)
  = Raised IntegrityError (mkInst db false).
Proof. intros H. unfold create_session. run_method. now rewrite H. Qed.

(** X5.  The session id is a digest of the subscriber id, the clock reading
    and the client address only.  A first [create_session] inserts an active
    session with no bytes sent, which raises the subscriber's count by one
    (and then blocks in [log_action]); a second one for the same subscriber
    at the same clock reading from the same address, made on another object
    and even for another stream or user agent, raises [IntegrityError] and
    writes nothing. *)
Theorem create_session_same_instant_collides
    (sha256_hex : string -> string) (str_datetime : Z -> string)
    (now user_id : Z) (stream1 stream2 : option Z)
    (client_ip agent1 agent2 : option string) (db : DB) :
  let sid := new_session_id sha256_hex str_datetime now user_id client_ip in
  session_exists sid db = false ->
  exists db1,
    create_session sha256_hex str_datetime now user_id stream1 client_ip agent1
      (mkInst db false) = Blocked (mkInst db1 true)
    /\ find_session sid db1
       = Some (Session.mk sid user_id stream1 client_ip agent1 now now 1 0)
    /\ count_active user_id db1 = count_active user_id db + 1
    /\ create_session sha256_hex str_datetime now user_id stream2 client_ip agent2
         (mkInst db1 false) = Raised IntegrityError (mkInst db1 false).
Proof.
  intros sid Hfresh. eexists. split; [now apply create_session_blocks|].
  fold sid. repeat split.
  - unfold find_session, insert_session. simpl. rewrite find_app_none.
    + simpl. now rewrite String.eqb_refl.
    + apply find_none_of_forall. intros s Hs.
      apply (existsb_false_in _ _ Hfresh s Hs).
  - rewrite count_active_insert, Z.eqb_refl. reflexivity.
  - apply create_session_collides. fold sid.
    unfold session_exists, insert_session. simpl.
    rewrite existsb_app. simpl. now rewrite String.eqb_refl, orb_true_r.
Qed.

Lemma create_session_same_instant_collides_witness :
  exists db1,
    create_session demo_digest demo_datetime 100 2 (Some 7) (Some "10.0.0.1") None
      (mkInst default_db false) = Blocked (mkInst db1 true)
    /\ create_session demo_digest demo_datetime 100 2 (Some 8) (Some "10.0.0.1")
         (Some "vlc") (mkInst db1 false) = Raised IntegrityError (mkInst db1 false).
Proof.
  destruct (create_session_same_instant_collides demo_digest demo_datetime 100 2
              (Some 7) (Some 8) (Some "10.0.0.1") None (Some "vlc") default_db)
    as (db1 & H1 & _ & _ & H2).
  - reflexivity.
  - exists db1. split; [exact H1|exact H2].
Defined.

(** ** The lock, once held *)

Lemma perform_on_held_lock sha256_hex str_datetime now (c : call) (db : DB) :
  perform sha256_hex str_datetime now c (mkInst db true) = Blocked (mkInst db true).
Proof. now destruct c. Qed.

Lemma step_on_held_object sha256_hex str_datetime (e : event) (w : World) :
  on e ∈ held w -> step sha256_hex str_datetime e w = w.
Proof.
  intros Hheld. destruct w as [db h]. destruct e as [i now c].
  unfold step, call_on, view. simpl in *.
  rewrite bool_decide_eq_true_2 by assumption.
  rewrite perform_on_held_lock. unfold leave. simpl. f_equal.
  apply set_eq. intros x. rewrite elem_of_union, elem_of_singleton.
  split; [intros [->|]; assumption|auto].
Qed.

Lemma step_keeps_held sha256_hex str_datetime (e : event) (w : World) (i : nat) :
  i ∈ held w -> i ∈ held (step sha256_hex str_datetime e w).
Proof.
  intros Hi. destruct (decide (on e ∈ held w)) as [Hon|Hon].
  - now rewrite step_on_held_object.
  - unfold step, call_on, leave. simpl.
    destruct (lock_held _); set_solver.
Qed.

Lemma create_session_step_holds sha256_hex str_datetime i now uid stream ip ua w :
  i ∉ held w ->
  session_exists (new_session_id sha256_hex str_datetime now uid ip) (file w) = false ->
  step sha256_hex str_datetime (mkEvent i now (CreateSession uid stream ip ua)) w
  = mkWorld (insert_session now (new_session_id sha256_hex str_datetime now uid ip)
               uid stream ip ua (file w))
            ({[i]} ∪ held w).
Proof.
  intros Hfree Hfresh. unfold step, call_on, view. simpl.
  rewrite bool_decide_eq_false_2 by assumption.
  unfold mbind, M_bind, bind.
  now rewrite (create_session_blocks _ _ _ _ _ _ _ _ Hfresh).
Qed.

(** X6.  An object that has opened a session is of no further use: its lock
    stays held for ever, and whatever session calls are made on it
    afterwards, at any time, change nothing in the database.  In particular
    the object can never report activity for the session it opened: the
    row stays as inserted, with no bytes sent. *)
Theorem session_creator_is_blocked_for_good
    (sha256_hex : string -> string) (str_datetime : Z -> string)
    (i : nat) (now user_id : Z) (stream_id : option Z)
    (client_ip user_agent : option string) (w : World) (events : list event) :
  let sid := new_session_id sha256_hex str_datetime now user_id client_ip in
  let w1 := step sha256_hex str_datetime
              (mkEvent i now (CreateSession user_id stream_id client_ip user_agent)) w in
  i ∉ held w ->
  session_exists sid (file w) = false ->
  Forall (fun e => on e = i) events ->
  i ∈ held w1
  /\ run sha256_hex str_datetime events w1 = w1
  /\ find_session sid (file (run sha256_hex str_datetime events w1))
     = Some (Session.mk sid user_id stream_id client_ip user_agent now now 1 0).
Proof.
  intros sid w1 Hfree Hfresh Hall.
  assert (i ∈ held w1) as Hheld.
  { unfold w1. rewrite create_session_step_holds by assumption. simpl. set_solver. }
  assert (run sha256_hex str_datetime events w1 = w1) as Hrun.
  { clear -Hall Hheld. induction Hall as [|e events He _ IH]; [reflexivity|].
    simpl. unfold run in *. simpl.
    rewrite step_on_held_object by (now rewrite He). exact IH. }
  repeat split; [exact Hheld|exact Hrun|].
  rewrite Hrun. unfold w1. rewrite create_session_step_holds by assumption.
  unfold find_session, insert_session. simpl. rewrite find_app_none.
  - simpl. fold sid. now rewrite String.eqb_refl.
  - apply find_none_of_forall. intros s Hs.
    apply (existsb_false_in _ _ Hfresh s Hs).
Qed.

Lemma session_creator_is_blocked_for_good_witness :
  find_session (new_session_id demo_digest demo_datetime 100 2 (Some "10.0.0.1"))
    (file (run demo_digest demo_datetime
             [mkEvent 0 200 (UpdateSession
                (new_session_id demo_digest demo_datetime 100 2 (Some "10.0.0.1")) 4096);
              mkEvent 0 300 (CleanupOldData 0)]
             (step demo_digest demo_datetime
                (mkEvent 0 100 (CreateSession 2 None (Some "10.0.0.1") None))
                (mkWorld default_db ∅))))
  = Some (Session.mk (new_session_id demo_digest demo_datetime 100 2 (Some "10.0.0.1"))
            2 None (Some "10.0.0.1") None 100 100 1 0).
Proof.
  apply (session_creator_is_blocked_for_good demo_digest demo_datetime 0 100 2 None
           (Some "10.0.0.1") None (mkWorld default_db ∅)).
  - set_solver.
  - reflexivity.
  - repeat constructor.
Defined.

(** X7.  A lock that is held is never released: along any run of session
    calls on any objects, the set of objects whose lock is held only
    grows, and a call on an object whose lock is held leaves the database
    file as it is. *)
Theorem held_locks_stay_held
    (sha256_hex : string -> string) (str_datetime : Z -> string)
    (events : list event) (w : World) :
  held w ⊆ held (run sha256_hex str_datetime events w)
  /\ forall e, on e ∈ held w -> file (step sha256_hex str_datetime e w) = file w.
Proof.
  split.
  - revert w. induction events as [|e events IH]; intros w; [set_solver|].
    unfold run in *. simpl. etransitivity; [|apply IH].
    intros i Hi. now apply step_keeps_held.
  - intros e He. now rewrite step_on_held_object.
Qed.

(** ** The audit log *)

Lemma logs_insert_session now sid uid stream ip ua db :
  logs (insert_session now sid uid stream ip ua db) = logs db.
Proof. reflexivity. Qed.


(** ** Accounts *)

Lemma nodup_key_eq {A K} (key : A -> K) (l : list A) (a b : A) :
  List.NoDup (map key l) -> In a l -> In b l -> key a = key b -> a = b.
Proof.
  induction l as [|x l IH]; simpl; [contradiction|].
  intros Hnd Ha Hb Hk. inversion Hnd as [|k ks Hnotin Hnd']; subst.
  destruct Ha as [->|Ha], Hb as [->|Hb]; auto.
  - exfalso. apply Hnotin. rewrite Hk. now apply in_map.
  - exfalso. apply Hnotin. rewrite <- Hk. now apply in_map.
Qed.

(** X9.  An account whose [is_active] is not 1 cannot authenticate, whatever
    password is offered, the right one included: [IPTVDatabase] returns
    [None] and writes nothing, [XtreamCodesServer] returns [None] and the
    API handler answers with the negative envelope. *)
Theorem inactive_account_cannot_authenticate
    (sha256_hex md5_hex : string -> string) (now : Z)
    (db : DB) (xdb : XtreamCodesServer.XDB)
    (user : User.row) (xuser : XtreamCodesServer.user_row)
    (params : gmap string (list string)) (action username password : string) :
  unique_usernames db -> In user (users db) ->
  User.username user = username -> User.is_active user <> 1 ->
  xtream_unique_usernames xdb -> In xuser (XtreamCodesServer.users_xtream xdb) ->
  XtreamCodesServer.username xuser = username ->
  XtreamCodesServer.is_active xuser <> 1 ->
  XtreamCodesServer.first_param params "action" = Some action ->
  XtreamCodesServer.first_param params "username" = Some username ->
  XtreamCodesServer.first_param params "password" = Some password ->
  authenticate_user sha256_hex now username password (mkInst db false)
  = Returned None (mkInst db false)
  /\ XtreamCodesServer.authenticate_user md5_hex xdb username password = None
  /\ XtreamCodesServer.handle_api_request md5_hex xdb params
     = inl XtreamCodesServer.negative_envelope.
Proof.
  intros Hnd Hin Hu Hina Hxnd Hxin Hxu Hxina Ha Hpu Hpp.
  assert (XtreamCodesServer.authenticate_user md5_hex xdb username password = None)
    as Hx.
  { apply find_none_of_forall. intros x Hx.
    destruct (String.eqb_spec (XtreamCodesServer.username x) username) as [E|];
      [|reflexivity].
    assert (x = xuser) as ->
      by (apply (nodup_key_eq XtreamCodesServer.username _ _ _ Hxnd Hx Hxin);
          congruence).
    apply Z.eqb_neq in Hxina. now rewrite Hxina, andb_false_r. }
  repeat split.
  - apply authenticate_user_no_match. apply find_none_of_forall. intros x Hx'.
    destruct (String.eqb_spec (User.username x) username) as [E|]; [|reflexivity].
    assert (x = user) as ->
      by (apply (nodup_key_eq User.username _ _ _ Hnd Hx' Hin); congruence).
    apply Z.eqb_neq in Hina. now rewrite Hina, andb_false_r.
  - exact Hx.
  - eapply handle_api_request_unauthenticated; eauto.
Qed.

Lemma inactive_account_cannot_authenticate_witness :
  authenticate_user demo_digest 5 "demo" "demo"
    (mkInst (with_users [User.mk 1 "demo" (demo_digest "demo") None "user" 0
                           (Some 1) 0 None None 0 None] 1 empty_db) false)
  = Returned None
      (mkInst (with_users [User.mk 1 "demo" (demo_digest "demo") None "user" 0
                             (Some 1) 0 None None 0 None] 1 empty_db) false).
Proof.
  apply (inactive_account_cannot_authenticate demo_digest demo_digest 5
           (with_users [User.mk 1 "demo" (demo_digest "demo") None "user" 0
                          (Some 1) 0 None None 0 None] 1 empty_db)
           (XtreamCodesServer.mkXDB
              [XtreamCodesServer.mk_user 1 "demo" (demo_digest "demo") 0 (Some 1)
                 None None 0] [])
           (User.mk 1 "demo" (demo_digest "demo") None "user" 0 (Some 1) 0 None
              None 0 None)
           (XtreamCodesServer.mk_user 1 "demo" (demo_digest "demo") 0 (Some 1)
              None None 0)
           (query EmptyString "demo" "demo") EmptyString "demo" "demo").
  - repeat constructor. simpl. tauto.
  - simpl. auto.
  - reflexivity.
  - discriminate.
  - repeat constructor. simpl. tauto.
  - simpl. auto.
  - reflexivity.
  - discriminate.
  - reflexivity.
  - reflexivity.
  - reflexivity.
Defined.

Lemma get_user_by_api_key_returns api_key db :
  get_user_by_api_key api_key (mkInst db false)
  = Returned (find (fun u => sql_eq_str (User.api_key u) (Some api_key)
                             && (User.is_active u =? 1)) (users db))
      (mkInst db false).
Proof. reflexivity. Qed.

(** X10.  The API key that [create_user] stores leads back to the account:
    once the insert is committed, a lookup of the key on another object
    returns exactly the row created.  And a lookup never returns an account
    that has no key, a different key, or is not active. *)
Theorem api_key_leads_to_its_account
    (sha256_hex : string -> string) (str_datetime : Z -> string)
    (now : Z) (username password : string) (email : option string) (role : string)
    (max_connections : Z) (db : DB) :
  let key := sha256_hex (username +:+ str_datetime now) in
  let db1 := store (final (create_user sha256_hex str_datetime now username password
                             email role max_connections (mkInst db false))) in
  users_conflict username key db = false ->
  get_user_by_api_key key (mkInst db1 false)
  = Returned (Some (User.mk (users_seq db + 1) username (sha256_hex password) email
                      role 1 (Some max_connections) now None None 0 (Some key)))
      (mkInst db1 false)
  /\ forall any_key any_db u s,
       get_user_by_api_key any_key (mkInst any_db false) = Returned (Some u) s ->
       In u (users any_db) /\ User.api_key u = Some any_key /\ User.is_active u = 1.
Proof.
  intros key db1 Hfree. split.
  - unfold db1. rewrite create_user_blocks by assumption. simpl.
    rewrite get_user_by_api_key_returns. do 2 f_equal.
    unfold insert_user. simpl. rewrite find_app_none.
    + simpl. fold key. now rewrite String.eqb_refl.
    + apply find_none_of_forall. intros u Hu.
      apply (existsb_false_in _ _ Hfree) in Hu.
      apply orb_false_elim in Hu as [_ Hu]. fold key. now rewrite Hu.
  - intros any_key any_db u s. rewrite get_user_by_api_key_returns.
    intros [= Hfind _]. apply find_some in Hfind as [Hin Hm].
    apply andb_prop in Hm as [Hk Ha]. apply Z.eqb_eq in Ha.
    destruct (User.api_key u) as [k|]; [|discriminate].
    simpl in Hk. apply String.eqb_eq in Hk. subst. auto.
Qed.

Lemma api_key_leads_to_its_account_witness :
  result_of (get_user_by_api_key (demo_digest ("test" +:+ demo_datetime 0))
    (mkInst (store (final (create_user demo_digest demo_datetime 0 "test" "test123"
                             None "user" 1 (mkInst default_db false)))) false))
  = Some (Some (User.mk 3 "test" (demo_digest "test123") None "user" 1 (Some 1) 0
                  None None 0 (Some (demo_digest ("test" +:+ demo_datetime 0))))).
Proof.
  destruct (api_key_leads_to_its_account demo_digest demo_datetime 0 "test" "test123"
              None "user" 1 default_db) as [H _].
  - reflexivity.
  - now rewrite H.
Defined.

Lemma users_wf_map (f : User.row -> User.row) (db : DB) :
  (forall u, User.id (f u) = User.id u) ->
  (forall u, User.username (f u) = User.username u) ->
  users_wf db ->
  users_wf (with_users (map f (users db)) (users_seq db) db).
Proof.
  intros Hid Hname (Hu & Hle & Hnd). unfold users_wf, unique_usernames in *. simpl.
  rewrite !map_map.
  rewrite (map_ext _ User.username) by assumption.
  rewrite (map_ext (fun x => User.id (f x)) User.id) by assumption.
  repeat split; [assumption| |assumption].
  apply List.Forall_map. eapply List.Forall_impl; [|exact Hle].
  intros u Hu'. simpl. now rewrite Hid.
Qed.

Lemma users_wf_insert now username hashed email role maxc key db :
  users_conflict username key db = false ->
  users_wf db ->
  users_wf (insert_user now username hashed email role maxc key db).
Proof.
  intros Hfree (Hu & Hle & Hnd). repeat split.
  - now apply insert_user_keeps_unique_usernames.
  - unfold insert_user. simpl. apply List.Forall_app. split.
    + eapply List.Forall_impl; [|exact Hle]. simpl. intros; lia.
    + repeat constructor. simpl. lia.
  - unfold insert_user. simpl. rewrite map_app. simpl.
    apply List.NoDup_app; [assumption|repeat constructor; auto|].
    intros i Hi [<-|[]]. apply in_map_iff in Hi as (u & Hid & Hin).
    rewrite List.Forall_forall in Hle. specialize (Hle u Hin). lia.
Qed.

Lemma users_bump user_id db :
  users_wf db -> users_wf (bump_total_streams user_id db).
Proof.
  apply users_wf_map; intros u; now destruct (User.id u =? user_id).
Qed.

(** X11.  The constraints of [users] (unique user names, distinct keys, none
    above the counter) are kept by every method that writes the table,
    however its call ends: [create_user], [authenticate_user] and
    [add_live_stream]. *)
Theorem users_constraints_are_kept
    (sha256_hex md5_hex : string -> string) (str_datetime : Z -> string) (s : Inst) :
  users_wf (store s) ->
  (forall now username password email role maxc,
      users_wf (store (final (create_user sha256_hex str_datetime now username
                                password email role maxc s))))
  /\ (forall now username password,
        users_wf (store (final (authenticate_user sha256_hex now username password s))))
  /\ (forall now stream_data o,
        add_live_stream md5_hex now stream_data s = Completes o ->
        users_wf (store (final o))).
Proof.
  intros Hwf. destruct s as [db [|]]; simpl in Hwf.
  - split; [|split]; intros; try assumption.
    match goal with H : _ = Completes _ |- _ => injection H as <- end.
    assumption.
  - split; [|split].
    + intros now username password email role maxc.
      destruct (users_conflict username
                  (sha256_hex (username +:+ str_datetime now)) db) eqn:E.
      * now rewrite create_user_conflict.
      * rewrite create_user_blocks by assumption. now apply users_wf_insert.
    + intros now username password.
      destruct (select_credentials username (sha256_hex password) db) as [u|] eqn:E.
      * rewrite (authenticate_user_match _ _ _ _ _ _ E). simpl.
        apply users_wf_map; [| |assumption];
          intros x; now destruct (User.id x =? User.id u).
      * now rewrite authenticate_user_no_match.
    + intros now data o. unfold add_live_stream. simpl.
      destruct (StreamData.stream_url data) as [u|]; [|discriminate].
      intros [= <-]. unfold add_live_stream_body. run_method.
      destruct (StreamData.name data), (StreamData.url data); try assumption.
      destruct (truthy_int (StreamData.user_id data)); simpl; [|assumption].
      now apply (users_bump _ (with_live_streams _ db)).
Qed.

Lemma users_constraints_are_kept_witness :
  users_wf (store (final (create_user demo_digest demo_datetime 7 "test" "test123"
                            None "user" 1 (mkInst default_db false)))).
Proof.
  apply (users_constraints_are_kept demo_digest demo_digest demo_datetime
           (mkInst default_db false)).
  repeat split.
  - repeat constructor; simpl; intuition discriminate.
  - repeat constructor; simpl; lia.
  - repeat constructor; simpl; intuition discriminate.
Defined.

(** ** Statistics *)




Lemma filter_map_untouched {A} (p : A -> bool) (f : A -> A) (l : list A) :
  (forall x, In x l -> p (f x) = p x) ->
  (forall x, In x l -> p x = true -> f x = x) ->
  List.filter p (map f l) = List.filter p l.
Proof.
  induction l as [|a l IH]; intros Hp Hf; simpl; [reflexivity|].
  rewrite Hp by (now left). destruct (p a) eqn:E.
  - rewrite Hf by (auto; now left). f_equal. apply IH; intros; auto; [apply Hp|apply Hf]; auto; now right.
  - apply IH; intros; [apply Hp|apply Hf]; auto; now right.
Qed.

Lemma opt_int_eqb_eq (a b : option Z) : opt_int_eqb a b = true <-> a = b.
Proof.
  destruct a, b; simpl; split; try discriminate; try reflexivity.
  - intros H. apply Z.eqb_eq in H. congruence.
  - intros [= ->]. apply Z.eqb_refl.
Qed.

Lemma has_key_iff d u s r :
  has_key d u s r = true
  <-> Stat.stat_date r = d /\ Stat.user_id r = u /\ Stat.stream_id r = s.
Proof.
  unfold has_key. rewrite !andb_true_iff, !opt_int_eqb_eq, String.eqb_eq. tauto.
Qed.

(** X13.  A call of [add_statistic] touches the rows of its own key only:
    for every other (date, subscriber, stream) key the rows are the same
    rows afterwards, and the constraints of the table hold again. *)
Theorem add_statistic_leaves_other_keys
    (today : string) (user_id stream_id : option Z) (bytes viewers : Z) (db : DB)
    (d : string) (u s : option Z) :
  statistics_keys_wf db ->
  d <> today \/ u <> user_id \/ s <> stream_id ->
  let db' := store (final (add_statistic today user_id stream_id bytes viewers
                             (mkInst db false))) in
  stat_rows d u s db' = stat_rows d u s db /\ statistics_keys_wf db'.
Proof.
  intros [Hwf Hnd] Hother db'. unfold db'.
  destruct (select_statistic today user_id stream_id db) as [existing|] eqn:Hsel.
  - rewrite (add_statistic_update _ _ _ _ _ _ _ Hsel). simpl. split.
    + unfold stat_rows, update_statistic. simpl.
      unfold select_statistic in Hsel.
      destruct (find _ (statistics db)) as [r0|] eqn:Hfind; [|discriminate].
      injection Hsel as <-. apply find_some in Hfind as [Hin0 Hm].
      apply andb_prop in Hm as [Hm Hs0]. apply andb_prop in Hm as [Hd0 Hu0].
      apply String.eqb_eq in Hd0.
      apply filter_map_untouched.
      * intros x _. now destruct (Stat.stat_id x =? Stat.stat_id r0).
      * intros x Hx Hk. destruct (Z.eqb_spec (Stat.stat_id x) (Stat.stat_id r0)) as [E|];
          [|reflexivity].
        assert (x = r0) as -> by (apply (nodup_key_eq Stat.stat_id _ _ _ Hnd Hx Hin0 E)).
        exfalso. apply has_key_iff in Hk as (Kd & Ku & Ks).
        destruct (Stat.user_id r0) as [a|], user_id as [a'|]; try discriminate.
        destruct (Stat.stream_id r0) as [b|], stream_id as [b'|]; try discriminate.
        simpl in Hu0, Hs0. apply Z.eqb_eq in Hu0, Hs0. subst.
        destruct Hother as [H|[H|H]]; congruence.
    + split.
      * now apply (add_statistic_keeps_wf today user_id stream_id bytes viewers) in Hwf;
          rewrite (add_statistic_update _ _ _ _ _ _ _ Hsel) in Hwf.
      * unfold update_statistic. simpl. rewrite map_map.
        rewrite (map_ext _ Stat.stat_id); [assumption|].
        intros x. now destruct (Stat.stat_id x =? existing).
  - rewrite (add_statistic_insert _ _ _ _ _ _ Hsel). simpl. split.
    + unfold stat_rows, insert_statistic. simpl. rewrite List.filter_app. simpl.
      destruct (has_key d u s _) eqn:Hk; [|now rewrite app_nil_r].
      apply has_key_iff in Hk as (Kd & Ku & Ks). simpl in *.
      destruct Hother as [H|[H|H]]; congruence.
    + split.
      * now apply (add_statistic_keeps_wf today user_id stream_id bytes viewers) in Hwf;
          rewrite (add_statistic_insert _ _ _ _ _ _ Hsel) in Hwf.
      * unfold insert_statistic. simpl. rewrite map_app. simpl.
        apply List.NoDup_app; [assumption|repeat constructor; auto|].
        intros i Hi [<-|[]]. apply in_map_iff in Hi as (x & Hid & Hin).
        unfold statistics_wf in Hwf. rewrite List.Forall_forall in Hwf.
        specialize (Hwf x Hin). lia.
Qed.

Lemma add_statistic_leaves_other_keys_witness :
  stat_rows "2026-11-03" (Some 2) (Some 9)
    (store (final (add_statistic "2026-11-04" (Some 2) (Some 9) 10 5
       (mkInst (insert_statistic "2026-11-03" (Some 2) (Some 9) 3 7 default_db) false))))
  = stat_rows "2026-11-03" (Some 2) (Some 9)
      (insert_statistic "2026-11-03" (Some 2) (Some 9) 3 7 default_db).
Proof.
  apply (add_statistic_leaves_other_keys "2026-11-04" (Some 2) (Some 9) 10 5
           (insert_statistic "2026-11-03" (Some 2) (Some 9) 3 7 default_db)
           "2026-11-03" (Some 2) (Some 9)).
  - split; repeat constructor; simpl; [lia|tauto].
  - left. discriminate.
Defined.

(** ** The playlist *)

Lemma order_by_ext {A} (le le' : A -> A -> bool) (l : list A) :
  (forall a b, le a b = le' a b) -> order_by le l = order_by le' l.
Proof.
  intros H. induction l as [|x l IH]; simpl; [reflexivity|]. rewrite IH.
  generalize (order_by le' l). intros m.
  induction m as [|y m IHm]; simpl; [reflexivity|]. now rewrite H, IHm.
Qed.

(** X14.  The playlist of a subscriber without active streams of its own is
    the three header lines and nothing else; this holds for any subscriber
    id, also one that no account has. *)
Theorem playlist_without_streams_is_the_header
    (generated : string) (user_id : Z) (fmt : string) (db : DB) :
  (forall s, In s (live_streams db) -> owned_active user_id s = false) ->
  generate_m3u_playlist generated user_id fmt (mkInst db false)
  = Returned ("#EXTM3U" +:+ nl +:+ "# Generated: " +:+ generated +:+ nl
                +:+ "# User ID: " +:+ pretty user_id +:+ nl +:+ nl)
      (mkInst db false).
Proof.
  intros Hnone. rewrite generate_m3u_playlist_items. unfold select_playlist.
  assert (List.filter (owned_active user_id) (live_streams db) = []) as ->.
  { induction (live_streams db) as [|s l IH]; simpl; [reflexivity|].
    rewrite (Hnone s) by (now left). apply IH. intros; apply Hnone; now right. }
  simpl. unfold playlist_header. rewrite append_empty_r.
  now rewrite !append_assoc.
Qed.

Lemma playlist_without_streams_is_the_header_witness :
  generate_m3u_playlist "2026-11-04 12:00:00" 99 "ts" (mkInst three_streams_db false)
  = Returned ("#EXTM3U" +:+ nl +:+ "# Generated: " +:+ "2026-11-04 12:00:00" +:+ nl
                +:+ "# User ID: " +:+ pretty 99 +:+ nl +:+ nl)
      (mkInst three_streams_db false).
Proof.
  apply (playlist_without_streams_is_the_header "2026-11-04 12:00:00" 99 "ts"
           three_streams_db).
  intros s [<-|[<-|[<-|[]]]]; reflexivity.
Defined.

(** X15.  A stream that belongs to another subscriber, to nobody, or is not
    active has no influence on a subscriber's playlist: with or without
    that row in [live_streams], wherever it stands, the text is the
    same. *)
Theorem playlist_ignores_foreign_and_inactive_streams
    (generated : string) (user_id : Z) (fmt : string) (db : DB)
    (before after : list Stream.row) (foreign : Stream.row) :
  owned_active user_id foreign = false ->
  result_of (generate_m3u_playlist generated user_id fmt
               (mkInst (with_live_streams (before ++ foreign :: after) db) false))
  = result_of (generate_m3u_playlist generated user_id fmt
                 (mkInst (with_live_streams (before ++ after) db) false)).
Proof.
  intros Hforeign. rewrite !generate_m3u_playlist_items. simpl. do 4 f_equal.
  unfold select_playlist. simpl.
  rewrite !List.filter_app. simpl. rewrite Hforeign.
  apply order_by_ext. reflexivity.
Qed.

Lemma playlist_ignores_foreign_and_inactive_streams_witness :
  result_of (generate_m3u_playlist "2026-11-04 12:00:00" 2 "ts"
               (mkInst (with_live_streams
                          ([stream_z] ++ hostile_stream_of_another :: [stream_y; stream_x])
                          three_streams_db) false))
  = result_of (generate_m3u_playlist "2026-11-04 12:00:00" 2 "ts"
                 (mkInst (with_live_streams ([stream_z] ++ [stream_y; stream_x])
                            three_streams_db) false)).
Proof.
  apply (playlist_ignores_foreign_and_inactive_streams "2026-11-04 12:00:00" 2 "ts"
           three_streams_db [stream_z] [stream_y; stream_x] hostile_stream_of_another).
  reflexivity.
Defined.













(** Without that agreement a category can be announced twice. *)
Example group_marker_can_repeat :
  markers (playlist_items (Some EmptyString) (select_playlist 2 renamed_categories_db))
  = [Some "News"; Some "Sports"; Some "News"].
Proof. reflexivity. Qed.

(** ** The server's dispatcher and user info *)

Lemma handle_api_request_content md5_hex db params j :
  XtreamCodesServer.handle_api_request md5_hex db params = inl j ->
  j = XtreamCodesServer.negative_envelope
  \/ j = XtreamCodesServer.get_live_categories db
  \/ exists row, In row (XtreamCodesServer.users_xtream db)
                 /\ j = XtreamCodesServer.user_info_response row.
Proof.
  unfold XtreamCodesServer.handle_api_request.
  destruct (XtreamCodesServer.first_param params "action") as [action|]; [|discriminate].
  destruct (XtreamCodesServer.first_param params "username") as [username|];
    [|discriminate].
  destruct (XtreamCodesServer.first_param params "password") as [password|];
    [|discriminate].
  destruct (XtreamCodesServer.authenticate_user md5_hex db username password)
    as [user|] eqn:Hauth; [|intros [= <-]; auto].
  destruct (String.eqb action "get_live_categories"); [intros [= <-]; auto|].
  destruct (String.eqb action "get_live_streams").
  { destruct (XtreamCodesServer.first_param params "category_id"); discriminate. }
  destruct (String.eqb action "get_vod_categories"); [discriminate|].
  destruct (String.eqb action "get_vod_streams").
  { destruct (XtreamCodesServer.first_param params "category_id"); discriminate. }
  intros [= <-]. right. right.
  destruct (get_user_info_authenticated _ _ _ _ _ Hauth) as (row & Hin & _ & E).
  exists row. auto.
Qed.

(** X17.  What the dispatcher serves.  A response with content comes from
    the [player_api] route only, and it is the negative envelope, the list
    of live categories or the user info of an account: never a list of
    streams.  A request for the listing actions [get_live_streams],
    [get_vod_categories] and [get_vod_streams] with valid credentials, and
    every request routed to playback ([/live/]) or to the playlist
    ([/get.php]), is answered with the text of an error: the class has no
    handler for them. *)
Theorem dispatcher_serves_no_streams
    (md5_hex : string -> string)
    (parse_query : string -> option (gmap string (list string)))
    (db : XtreamCodesServer.XDB) (data : string) :
  (forall j, handle_request md5_hex parse_query db data = Body j ->
     contains "/player_api.php" data = true
     /\ (j = XtreamCodesServer.negative_envelope
         \/ j = XtreamCodesServer.get_live_categories db
         \/ exists row, In row (XtreamCodesServer.users_xtream db)
                        /\ j = XtreamCodesServer.user_info_response row))
  /\ (forall params action username password user,
        contains "/player_api.php" data = true ->
        parse_query data = Some params ->
        XtreamCodesServer.first_param params "action" = Some action ->
        XtreamCodesServer.first_param params "username" = Some username ->
        XtreamCodesServer.first_param params "password" = Some password ->
        XtreamCodesServer.authenticate_user md5_hex db username password = Some user ->
        action = "get_live_streams" \/ action = "get_vod_categories"
        \/ action = "get_vod_streams" ->
        exists e, handle_request md5_hex parse_query db data = ErrorText e)
  /\ (contains "/player_api.php" data = false ->
      contains "/live/" data = true \/ contains "/get.php" data = true ->
      exists name,
        handle_request md5_hex parse_query db data
        = ErrorText (FromHandler (XtreamCodesServer.AttributeError name))).
Proof.
  split; [|split].
  - intros j. unfold handle_request.
    destruct (contains "/player_api.php" data).
    + destruct (parse_query data) as [params|]; [|discriminate].
      destruct (XtreamCodesServer.handle_api_request md5_hex db params) eqn:E;
        [|discriminate].
      intros [= <-]. split; [reflexivity|]. now apply handle_api_request_content in E.
    + destruct (contains "/live/" data); [discriminate|].
      destruct (contains "/get.php" data); discriminate.
  - intros params action username password user Hc Hp Ha Hu Hpw Hauth Hact.
    unfold handle_request. rewrite Hc, Hp.
    unfold XtreamCodesServer.handle_api_request. rewrite Ha, Hu, Hpw, Hauth.
    destruct Hact as [->|[->| ->]]; simpl;
      try destruct (XtreamCodesServer.first_param params "category_id");
      eexists; reflexivity.
  - intros Hapi Hroute. unfold handle_request. rewrite Hapi.
    destruct (contains "/live/" data); [eexists; reflexivity|].
    destruct Hroute as [|Hget]; [discriminate|]. rewrite Hget. eexists; reflexivity.
Qed.

Lemma find_set_password_xtream (q : XtreamCodesServer.user_row -> bool)
    (p : XtreamCodesServer.user_row -> string)
    (l : list XtreamCodesServer.user_row) :
  (forall u, q (xtream_set_password (p u) u) = q u) ->
  find q (map (fun u => xtream_set_password (p u) u) l)
  = option_map (fun u => xtream_set_password (p u) u) (find q l).
Proof. intros H. now apply (find_map_commute q (fun u => xtream_set_password (p u) u)). Qed.

(** X18.  The user info never depends on the stored password digest:
    whatever the [password] column of every account is replaced with, the
    value that [XtreamCodesServer.get_user_info] builds and the value that
    [IPTVDatabase.get_xtream_user_info] returns are the same as before. *)
Theorem user_info_is_independent_of_passwords
    (timestamp_text : Z -> string) (generated username : string)
    (xdb : XtreamCodesServer.XDB) (db : DB)
    (vod : list Vod.row) (series : list Series.row)
    (xp : XtreamCodesServer.user_row -> string) (p : User.row -> string) :
  XtreamCodesServer.get_user_info
    (XtreamCodesServer.mkXDB
       (map (fun u => xtream_set_password (xp u) u) (XtreamCodesServer.users_xtream xdb))
       (XtreamCodesServer.categories_xtream xdb)) username
  = XtreamCodesServer.get_user_info xdb username
  /\ result_of (get_xtream_user_info timestamp_text generated username vod series
                  (mkInst (with_users (map (fun u => set_password (p u) u) (users db))
                             (users_seq db) db) false))
     = result_of (get_xtream_user_info timestamp_text generated username vod series
                    (mkInst db false)).
Proof.
  split.
  - unfold XtreamCodesServer.get_user_info. simpl.
    rewrite find_set_password_xtream by reflexivity.
    now destruct (find _ (XtreamCodesServer.users_xtream xdb)).
  - unfold get_xtream_user_info. run_method.
    rewrite (find_map_commute _ (fun u => set_password (p u) u)) by reflexivity.
    now destruct (find _ (users db)).
Qed.

(** ** Initialisation, run again *)






Lemma category_conflict_without_owner name category_type db :
  category_conflict name category_type None db = false.
Proof.
  unfold category_conflict. induction (categories db) as [|c l IH]; simpl; [reflexivity|].
  now rewrite sql_eq_int_null, andb_false_r.
Qed.

Lemma add_default_categories_appends (defaults : list (string * Z * string * Z))
    (db : DB) :
  exists added,
    categories (fold_left
                  (fun db '(name, parent, cat_type, order) =>
                     insert_or_ignore_category name parent cat_type order db)
                  defaults db)
    = categories db ++ added
    /\ map (fun c => (Category.category_name c, Category.parent_id c,
                      Category.category_type c, Category.sort_order c)) added
       = defaults
    /\ Forall (fun c => Category.user_id c = None /\ Category.is_active c = 1) added.
Proof.
  revert db. induction defaults as [|[[[name parent] cat_type] order] defaults IH];
    intros db; simpl.
  - exists []. rewrite app_nil_r. auto.
  - unfold insert_or_ignore_category at 2.
    rewrite category_conflict_without_owner.
    destruct (IH (insert_category name parent cat_type None order db))
      as (added & E & Hmap & Hall).
    eexists (_ :: added). split; [|split].
    + rewrite E. unfold insert_category. simpl. now rewrite <- app_assoc.
    + simpl. now rewrite Hmap.
    + constructor; [simpl; auto|assumption].
Qed.

(** X20.  The default categories are added again by every initialisation.
    Their owner is [NULL], which the [UNIQUE] constraint never takes for a
    duplicate, so [INSERT OR IGNORE] ignores nothing: each run appends the
    eight default categories to whatever the table holds, the eight of the
    last run included. *)
Theorem default_categories_are_added_every_time (db : DB) :
  exists added,
    categories (add_default_categories db) = categories db ++ added
    /\ map (fun c => (Category.category_name c, Category.parent_id c,
                      Category.category_type c, Category.sort_order c)) added
       = default_categories
    /\ Forall (fun c => Category.user_id c = None /\ Category.is_active c = 1) added
    /\ length (categories (add_default_categories (add_default_categories db)))
       = (length (categories db) + 16)%nat.
Proof.
  destruct (add_default_categories_appends default_categories db)
    as (added & E & Hmap & Hall).
  exists added. repeat split; try assumption.
  destruct (add_default_categories_appends default_categories
              (add_default_categories db)) as (added2 & E2 & Hmap2 & _).
  unfold add_default_categories in *. rewrite E2, E, !length_app.
  apply (f_equal (@length _)) in Hmap, Hmap2.
  rewrite length_map in Hmap, Hmap2. rewrite Hmap, Hmap2. simpl. lia.
Qed.

(** ** Settings *)



Lemma find_setting_replaced key value settings :
  find_setting key (replace_setting key value settings)
  = Some (Setting.mk key (Some value) "string" "general" None 0).
Proof.
  unfold find_setting, replace_setting. rewrite find_app_none.
  - simpl. now rewrite String.eqb_refl.
  - apply find_none_of_forall. intros r Hr. apply filter_In in Hr as [_ Hr].
    now apply negb_true_iff in Hr.
Qed.


Lemma get_setting_returns key default settings db :
  get_setting key default settings (mkInst db false)
  = Returned (match find_setting key settings with
              | Some r => Setting.setting_value r
              | None => default
              end) (mkInst db false).
Proof.
  unfold get_setting, find_setting. run_method.
  now destruct (find _ settings).
Qed.



Lemma find_setting_insert_or_ignore key k v t c d settings r :
  find_setting key settings = Some r ->
  find_setting key (insert_or_ignore_setting k v t c d settings) = Some r.
Proof.
  intros H. unfold insert_or_ignore_setting.
  destruct (existsb _ settings); [exact H|]. now apply find_app_some.
Qed.

Lemma find_setting_defaults key settings r
    (defaults : list (string * string * string * string * string)) :
  find_setting key settings = Some r ->
  find_setting key
    (fold_left (fun settings '(key, value, type_, category, desc) =>
                  insert_or_ignore_setting key value type_ category desc settings)
               defaults settings) = Some r.
Proof.
  revert settings. induction defaults as [|[[[[k v] t] c] d] defaults IH];
    intros settings H; simpl; [exact H|].
  apply IH. now apply find_setting_insert_or_ignore.
Qed.

(** X22.  [update_setting] replaces the whole row: whatever type, category
    and description the setting had, afterwards its type is [string], its
    category [general] and its description [NULL].  A later initialisation
    does not bring them back and does not undo the change: the row stays
    as [update_setting] left it, and [get_setting] returns the value
    written. *)
Theorem update_setting_resets_the_row
    (key value : string) (default : option string)
    (settings : list Setting.row) (db : DB) :
  let settings' := add_default_settings (replace_setting key value settings) in
  find_setting key (replace_setting key value settings)
  = Some (Setting.mk key (Some value) "string" "general" None 0)
  /\ find_setting key settings'
     = Some (Setting.mk key (Some value) "string" "general" None 0)
  /\ get_setting key default settings' (mkInst db false)
     = Returned (Some value) (mkInst db false).
Proof.
  intros settings'.
  assert (find_setting key settings'
          = Some (Setting.mk key (Some value) "string" "general" None 0)) as H.
  { apply find_setting_defaults, find_setting_replaced. }
  repeat split.
  - apply find_setting_replaced.
  - exact H.
  - now rewrite get_setting_returns, H.
Qed.

(** The default setting [max_connections_per_user] is an integer of the
    category [streaming] until it is updated. *)
Example update_setting_resets_the_row_default :
  find_setting "max_connections_per_user" (add_default_settings [])
  = Some (Setting.mk "max_connections_per_user" (Some "3") "integer" "streaming"
            (Some "أقصى اتصالات لكل مستخدم") 0)
  /\ find_setting "max_connections_per_user"
       (add_default_settings
          (replace_setting "max_connections_per_user" "5" (add_default_settings [])))
     = Some (Setting.mk "max_connections_per_user" (Some "5") "string" "general" None 0).
Proof. split; reflexivity. Qed.

(** ** Categories and streams of the catalogue *)

Lemma fold_max_ge (x : Z) (xs : list Z) :
  x <= fold_right Z.max x xs /\ Forall (fun y => y <= fold_right Z.max x xs) xs.
Proof.
  induction xs as [|y xs [IH1 IH2]]; simpl; [split; [lia|constructor]|].
  split; [lia|]. constructor; [lia|].
  eapply List.Forall_impl; [|exact IH2]. simpl. intros; lia.
Qed.

Lemma select_max_sort_order_bounds category_type user_id db c :
  In c (categories db) ->
  Category.category_type c = category_type ->
  sql_eq_int (Category.user_id c) user_id = true ->
  exists m, select_max_sort_order category_type user_id db = Some m
            /\ Category.sort_order c <= m.
Proof.
  intros Hin Ht Hu. unfold select_max_sort_order.
  assert (In (Category.sort_order c)
            (map Category.sort_order
               (List.filter (fun c => String.eqb (Category.category_type c) category_type
                                      && sql_eq_int (Category.user_id c) user_id)
                            (categories db)))) as Hm.
  { apply in_map, filter_In. split; [assumption|].
    now rewrite Ht, String.eqb_refl, Hu. }
  destruct (map _ _) as [|x xs]; [contradiction|].
  eexists. split; [reflexivity|].
  destruct (fold_max_ge x xs) as [H1 H2]. destruct Hm as [<-|Hm]; [assumption|].
  rewrite List.Forall_forall in H2. now apply H2.
Qed.

Lemma add_category_blocks now name category_type parent_id user_id db :
  category_conflict name category_type user_id db = false ->
  add_category now name category_type parent_id user_id (mkInst db false)
  = Blocked (mkInst (insert_category name parent_id category_type user_id
                       (int_or (select_max_sort_order category_type user_id db) 0 + 1)
                       db) true).
Proof. intros H. unfold add_category. run_method. now rewrite H. Qed.

(** X23.  The sort order that [add_category] assigns.  For a category with
    an owner it is above the sort order of every category of that owner and
    type, and a second category of the same name, type and owner is refused
    with [IntegrityError].  For a category without owner the query for the
    current maximum compares the owner with [NULL] and finds nothing: the
    sort order is always 1, and a duplicate name is never refused.  Where a
    row is inserted the call then blocks in [log_action]. *)
Theorem add_category_sort_order
    (now : Z) (name category_type : string) (parent_id : Z) (db : DB) :
  add_category now name category_type parent_id None (mkInst db false)
  = Blocked (mkInst (insert_category name parent_id category_type None 1 db) true)
  /\ forall owner,
       (category_conflict name category_type (Some owner) db = true ->
        add_category now name category_type parent_id (Some owner) (mkInst db false)
        = Raised IntegrityError (mkInst db false))
       /\ (category_conflict name category_type (Some owner) db = false ->
           exists order,
             add_category now name category_type parent_id (Some owner)
               (mkInst db false)
             = Blocked (mkInst (insert_category name parent_id category_type
                                  (Some owner) order db) true)
             /\ forall c, In c (categories db) ->
                  Category.category_type c = category_type ->
                  Category.user_id c = Some owner ->
                  Category.sort_order c < order).
Proof.
  split; [|intros owner; split].
  - rewrite add_category_blocks by apply category_conflict_without_owner.
    unfold select_max_sort_order.
    assert (List.filter
              (fun c => String.eqb (Category.category_type c) category_type
                        && sql_eq_int (Category.user_id c) None)
              (categories db) = []) as ->; [|reflexivity].
    induction (categories db) as [|c l IH]; simpl; [reflexivity|].
    now rewrite sql_eq_int_null, andb_false_r.
  - intros H. unfold add_category. run_method. now rewrite H.
  - intros H. eexists. split; [now apply add_category_blocks|].
    intros c Hin Ht Hu.
    destruct (select_max_sort_order_bounds category_type (Some owner) db c Hin Ht)
      as (m & Hm & Hle).
    { rewrite Hu. simpl. apply Z.eqb_refl. }
    rewrite Hm. simpl. destruct (Z.eqb_spec m 0); lia.
Qed.

Lemma order_by_in {A} (le : A -> A -> bool) (l : list A) (x : A) :
  In x (order_by le l) <-> In x l.
Proof.
  split; apply Permutation_in; [|symmetry]; apply order_by_perm.
Qed.

Lemma category_order_total (c d : Category.row) :
  category_order c d = true \/ category_order d c = true.
Proof.
  unfold category_order. rewrite (Z.compare_antisym (Category.sort_order c)).
  destruct (Category.sort_order c ?= Category.sort_order d); simpl;
    auto using String.leb_total.
Qed.

(** X24.  What [get_categories] lists for a subscriber: the active
    categories of the type asked for that the subscriber owns or that have
    no owner, and no category of another subscriber, ordered by sort order
    and then name.  The subscriber id 0 is taken for no subscriber and the
    empty type for no type: the filter is dropped, and the categories of
    every owner are listed. *)
Theorem get_categories_lists_own_and_global
    (category_type : string) (user_id : Z) (db : DB) :
  category_type <> EmptyString -> user_id <> 0 ->
  exists result,
    get_categories (Some category_type) (Some user_id) (mkInst db false)
    = Returned result (mkInst db false)
    /\ (forall c, In c result <->
          In c (categories db) /\ Category.is_active c = 1
          /\ Category.category_type c = category_type
          /\ (Category.user_id c = Some user_id \/ Category.user_id c = None))
    /\ Sorted (fun c d => category_order c d = true) result
    /\ get_categories (Some category_type) (Some 0) (mkInst db false)
       = get_categories (Some category_type) None (mkInst db false)
    /\ get_categories (Some EmptyString) (Some user_id) (mkInst db false)
       = get_categories None (Some user_id) (mkInst db false).
Proof.
  intros Ht Hu. eexists. split; [reflexivity|]. split; [|split; [|split; reflexivity]].
  - intros c. rewrite order_by_in.
    rewrite filter_In. unfold category_visible.
    assert (truthy_str (Some category_type) = true) as ->
      by (destruct category_type; [contradiction|reflexivity]).
    assert (truthy_int (Some user_id) = true) as ->
      by (simpl; now apply negb_true_iff, Z.eqb_neq).
    rewrite !andb_true_iff, orb_true_iff, Z.eqb_eq. simpl.
    rewrite String.eqb_eq.
    destruct (Category.user_id c) as [o|]; simpl; rewrite ?Z.eqb_eq;
      intuition (try congruence; try discriminate).
  - apply order_by_sorted, category_order_total.
Qed.

Lemma get_categories_lists_own_and_global_witness :
  exists result,
    get_categories (Some "vod") (Some 2)
      (mkInst (insert_category "Mine" 0 "vod" (Some 2) 1
                 (insert_category "Theirs" 0 "vod" (Some 5) 1
                    (add_default_categories default_db))) false)
    = Returned result
        (mkInst (insert_category "Mine" 0 "vod" (Some 2) 1
                   (insert_category "Theirs" 0 "vod" (Some 5) 1
                      (add_default_categories default_db))) false)
    /\ map Category.category_name result = ["Mine"; "أفلام"; "مسلسلات"; "وثائقيات"].
Proof.
  destruct (get_categories_lists_own_and_global "vod" 2
              (insert_category "Mine" 0 "vod" (Some 2) 1
                 (insert_category "Theirs" 0 "vod" (Some 5) 1
                    (add_default_categories default_db))))
    as (result & H & _).
  - discriminate.
  - discriminate.
  - exists result. split; [exact H|].
    vm_compute in H. injection H as <-. reflexivity.
Defined.

(** X25.  What [get_live_streams] lists for a subscriber: exactly the active
    streams of that subscriber, ordered by name.  The subscriber id 0 is
    taken for no subscriber: the active streams of every owner are
    listed. *)
Theorem get_live_streams_lists_own_active_streams (user_id : Z) (db : DB) :
  user_id <> 0 ->
  exists result,
    get_live_streams (Some user_id) None (mkInst db false)
    = Returned result (mkInst db false)
    /\ (forall s, In s result <->
          In s (live_streams db) /\ Stream.is_active s = 1
          /\ Stream.user_id s = Some user_id)
    /\ Sorted (fun s t => String.leb (Stream.stream_name s) (Stream.stream_name t) = true)
              result
    /\ get_live_streams (Some 0) None (mkInst db false)
       = get_live_streams None None (mkInst db false).
Proof.
  intros Hu. eexists. split; [reflexivity|]. split; [|split; [|reflexivity]].
  - intros s. rewrite order_by_in, filter_In.
    assert (truthy_int (Some user_id) = true) as ->
      by (simpl; now apply negb_true_iff, Z.eqb_neq).
    simpl. rewrite andb_true_r, andb_true_iff, Z.eqb_eq.
    destruct (Stream.user_id s) as [o|]; simpl; rewrite ?Z.eqb_eq;
      intuition (try congruence; try discriminate).
  - apply order_by_sorted. intros a b. apply String.leb_total.
Qed.

Lemma get_live_streams_lists_own_active_streams_witness :
  exists result,
    get_live_streams (Some 2) None
      (mkInst (with_live_streams [stream_z; hostile_stream_of_another; stream_y; stream_x]
                 three_streams_db) false)
    = Returned result
        (mkInst (with_live_streams [stream_z; hostile_stream_of_another; stream_y; stream_x]
                   three_streams_db) false)
    /\ result = [stream_x; stream_y; stream_z].
Proof.
  destruct (get_live_streams_lists_own_active_streams 2
              (with_live_streams [stream_z; hostile_stream_of_another; stream_y; stream_x]
                 three_streams_db)) as (result & H & _).
  - discriminate.
  - exists result. split; [exact H|].
    vm_compute in H. injection H as <-. reflexivity.
Defined.

Lemma add_live_stream_blocks md5_hex now stream_url name url data db :
  StreamData.stream_url data = Some stream_url ->
  StreamData.name data = Some name ->
  StreamData.url data = Some url ->
  add_live_stream md5_hex now data (mkInst db false)
  = Completes (Blocked (mkInst
      (let db1 :=
         with_live_streams
           (live_streams db ++
              [Stream.mk (next_stream_id db) name url (StreamData.category_id data)
                 (StreamData.category_name data) (StreamData.icon data)
                 (StreamData.epg_id data) 1 (StreamData.user_id data)
                 (Some ("http://localhost/live/" +:+ substring 0 8 (md5_hex stream_url)))])
           db in
       if truthy_int (StreamData.user_id data)
       then bump_total_streams (default 0 (StreamData.user_id data)) db1 else db1)
      true)).
Proof.
  intros Hs Hn Hu. unfold add_live_stream. simpl. rewrite Hs.
  unfold add_live_stream_body. run_method. rewrite Hn, Hu.
  now destruct (truthy_int (StreamData.user_id data)).
Qed.

(** X26.  [add_live_stream] subscripts the key [stream_url] but stores the
    value of the key [url].  A dictionary without [stream_url], such as the
    one in the self-test of the module, raises [KeyError] and nothing is
    written.  With both keys and a name, the stream is inserted as an
    active stream whose address is the value of [url] and whose proxy
    address is [http://localhost/live/] followed by the first eight digits
    of the MD5 of the value of [stream_url]; it is found by
    [get_stream_by_id] from another object; and the call itself blocks in
    [log_action]. *)
Theorem add_live_stream_needs_both_url_keys
    (md5_hex : string -> string) (now : Z) (data : StreamData.t) (db : DB) :
  (StreamData.stream_url data = None ->
   add_live_stream md5_hex now data (mkInst db false) = KeyError "stream_url")
  /\ forall stream_url name url,
       StreamData.stream_url data = Some stream_url ->
       StreamData.name data = Some name ->
       StreamData.url data = Some url ->
       exists db' row,
         add_live_stream md5_hex now data (mkInst db false)
         = Completes (Blocked (mkInst db' true))
         /\ live_streams db' = live_streams db ++ [row]
         /\ Stream.stream_url row = url
         /\ Stream.proxy_url row
            = Some ("http://localhost/live/" +:+ substring 0 8 (md5_hex stream_url))
         /\ Stream.is_active row = 1
         /\ Stream.user_id row = StreamData.user_id data
         /\ exists owner,
              get_stream_by_id (Stream.stream_id row) (mkInst db' false)
              = Returned (Some (row, owner)) (mkInst db' false).
Proof.
  split.
  - intros H. unfold add_live_stream. simpl. now rewrite H.
  - intros stream_url name url Hs Hn Hu.
    pose (row := Stream.mk (next_stream_id db) name url (StreamData.category_id data)
                   (StreamData.category_name data) (StreamData.icon data)
                   (StreamData.epg_id data) 1 (StreamData.user_id data)
                   (Some ("http://localhost/live/"
                            +:+ substring 0 8 (md5_hex stream_url)))).
    pose (db1 := with_live_streams (live_streams db ++ [row]) db).
    exists (if truthy_int (StreamData.user_id data)
            then bump_total_streams (default 0 (StreamData.user_id data)) db1 else db1),
           row.
    assert (live_streams
              (if truthy_int (StreamData.user_id data)
               then bump_total_streams (default 0 (StreamData.user_id data)) db1
               else db1)
            = live_streams db ++ [row]) as Hls
      by (now destruct (truthy_int _)).
    split; [apply (add_live_stream_blocks md5_hex now stream_url name url data db
                     Hs Hn Hu)|].
    repeat split; try assumption.
    eexists. unfold get_stream_by_id. run_method. rewrite Hls.
    rewrite find_app_none.
    + simpl. rewrite Z.eqb_refl. simpl. reflexivity.
    + apply find_none_of_forall. intros s Hin.
      assert (Stream.stream_id s < next_stream_id db) as Hlt.
      { unfold next_stream_id. clear -Hin.
        induction (live_streams db) as [|t l IH]; [contradiction|].
        simpl. destruct Hin as [->|Hin]; [lia|]. specialize (IH Hin). lia. }
      destruct (Z.eqb_spec (Stream.stream_id s) (next_stream_id db)) as [E|];
        [lia|reflexivity].
Qed.

Lemma add_live_stream_needs_both_url_keys_witness :
  add_live_stream demo_digest 10 self_test_stream (mkInst default_db false)
  = KeyError "stream_url".
Proof.
  apply (add_live_stream_needs_both_url_keys demo_digest 10 self_test_stream default_db).
  reflexivity.
Defined.

Lemma playlist_holds_entry generated user_id fmt db (s : Stream.row) :
  In s (live_streams db) -> owned_active user_id s = true ->
  exists before after,
    generate_m3u_playlist generated user_id fmt (mkInst db false)
    = Returned (before +:+ entry_block fmt s +:+ after) (mkInst db false).
Proof.
  intros Hin Hown.
  assert (In s (select_playlist user_id db)) as Hsel
    by (apply order_by_in, filter_In; auto).
  destruct (playlist_items_entry s _ (Some EmptyString) Hsel) as (l1 & l2 & E).
  exists (playlist_header generated user_id +:+ render fmt l1), (render fmt l2).
  rewrite generate_m3u_playlist_items, E, render_app.
  cbn [render fold_right render_item]. now rewrite !append_assoc.
Qed.

(** X27.  A stream added for a subscriber is part of what the subscriber is
    served: once [add_live_stream] has committed, on another object
    [get_live_streams] lists the new row for that subscriber, the
    subscriber's playlist holds its entry, whose address line in the [ts]
    format is the proxy address, and the [total_streams] counter of the
    owner's account is one higher. *)
Theorem added_stream_is_served
    (md5_hex : string -> string) (now : Z) (data : StreamData.t) (db : DB)
    (generated stream_url name url : string) (user_id : Z) (owner : User.row) :
  StreamData.stream_url data = Some stream_url ->
  StreamData.name data = Some name ->
  StreamData.url data = Some url ->
  StreamData.user_id data = Some user_id -> user_id <> 0 ->
  find (fun u => User.id u =? user_id) (users db) = Some owner ->
  exists db' row,
    add_live_stream md5_hex now data (mkInst db false)
    = Completes (Blocked (mkInst db' true))
    /\ Stream.stream_name row = name
    /\ Stream.proxy_url row
       = Some ("http://localhost/live/" +:+ substring 0 8 (md5_hex stream_url))
    /\ (exists listed,
          get_live_streams (Some user_id) None (mkInst db' false)
          = Returned listed (mkInst db' false) /\ In row listed)
    /\ (exists before after,
          generate_m3u_playlist generated user_id "ts" (mkInst db' false)
          = Returned (before +:+ entry_block "ts" row +:+ after) (mkInst db' false))
    /\ option_map User.total_streams
         (find (fun u => User.id u =? user_id) (users db'))
       = Some (User.total_streams owner + 1).
Proof.
  intros Hs Hn Hu Hown Hne Howner.
  pose (row := Stream.mk (next_stream_id db) name url (StreamData.category_id data)
                 (StreamData.category_name data) (StreamData.icon data)
                 (StreamData.epg_id data) 1 (Some user_id)
                 (Some ("http://localhost/live/"
                          +:+ substring 0 8 (md5_hex stream_url)))).
  exists (bump_total_streams user_id
            (with_live_streams (live_streams db ++ [row]) db)), row.
  assert (truthy_int (Some user_id) = true) as Htruthy
    by (simpl; now apply negb_true_iff, Z.eqb_neq).
  split; [|repeat split].
  - rewrite (add_live_stream_blocks md5_hex now stream_url name url data db Hs Hn Hu).
    rewrite Hown, Htruthy. reflexivity.
  - eexists. split; [reflexivity|].
    apply order_by_in, filter_In. split.
    + simpl. apply in_or_app. right. now left.
    + rewrite Htruthy. simpl. now rewrite Z.eqb_refl.
  - apply playlist_holds_entry.
    + simpl. apply in_or_app. right. now left.
    + unfold owned_active. simpl. now rewrite Z.eqb_refl.
  - unfold bump_total_streams. simpl.
    rewrite (find_map_commute (fun u => User.id u =? user_id)).
    + rewrite Howner. simpl. apply find_some in Howner as [_ E]. now rewrite E.
    + intros u. destruct (User.id u =? user_id) eqn:E; simpl; auto.
Qed.

Lemma added_stream_is_served_witness :
  exists db' row,
    add_live_stream demo_digest 10 complete_stream (mkInst default_db false)
    = Completes (Blocked (mkInst db' true))
    /\ Stream.stream_name row = "Test Channel"
    /\ Stream.proxy_url row
       = Some ("http://localhost/live/"
                 +:+ substring 0 8 (demo_digest "http://example.com/stream.m3u8")).
Proof.
  destruct (added_stream_is_served demo_digest 10 complete_stream default_db
              "2026-11-04 12:00:00" "http://example.com/stream.m3u8" "Test Channel"
              "http://example.com/stream.m3u8" 2
              (User.mk 2 "demo" (demo_digest "demo123") (Some "demo@iptv.com") "user"
                 1 (Some 1) 0 (Some 2592000) None 0 None))
    as (db' & row & H1 & H2 & H3 & _).
  - reflexivity.
  - reflexivity.
  - reflexivity.
  - reflexivity.
  - discriminate.
  - reflexivity.
  - exists db', row. auto.
Defined.

Lemma sql_eq_int_sym (a b : option Z) : sql_eq_int a b = sql_eq_int b a.
Proof. destruct a, b; simpl; auto using Z.eqb_sym. Qed.

(** X28.  The user-info record and the playlist agree.  For an active
    account, and with distinct stream ids, the [total_streams] that
    [get_xtream_user_info] reports is the number of streams in the
    account's playlist; the password field is the mask and [auth] is 1.
    For a user name that no active account has, the result is the negative
    envelope. *)
Theorem user_info_counts_the_playlist
    (timestamp_text : Z -> string) (generated username : string)
    (vod : list Vod.row) (series : list Series.row) (db : DB) :
  List.NoDup (map Stream.stream_id (live_streams db)) ->
  (forall user,
      find (fun u => String.eqb (User.username u) username && (User.is_active u =? 1))
           (users db) = Some user ->
      exists info,
        get_xtream_user_info timestamp_text generated username vod series
          (mkInst db false) = Returned info (mkInst db false)
        /\ json_field "total_streams" info
           = Some (XtreamCodesServer.JInt
                     (Z.of_nat (length (select_playlist (User.id user) db))))
        /\ json_field "password" info = Some (XtreamCodesServer.JStr "********")
        /\ json_field "auth" info = Some (XtreamCodesServer.JInt 1))
  /\ (find (fun u => String.eqb (User.username u) username && (User.is_active u =? 1))
           (users db) = None ->
      get_xtream_user_info timestamp_text generated username vod series
        (mkInst db false)
      = Returned XtreamCodesServer.negative_envelope (mkInst db false)).
Proof.
  intros Hnd. split.
  - intros user Hfind. eexists. split.
    + unfold get_xtream_user_info. run_method. rewrite Hfind. reflexivity.
    + repeat split. simpl. do 2 f_equal. unfold count_distinct. f_equal.
      unfold select_playlist.
      rewrite (Permutation_length (order_by_perm _ _)).
      rewrite nodup_fixed_point.
      * rewrite length_map. f_equal. apply filter_ext. intros s.
        unfold owned_active. now rewrite sql_eq_int_sym.
      * clear -Hnd. induction (live_streams db) as [|s l IH]; simpl; [constructor|].
        inversion Hnd as [|? ? Hnotin Hnd']; subst.
        destruct (_ && _); simpl; [|now apply IH].
        constructor; [|now apply IH].
        intros Hin. apply Hnotin. apply in_map_iff in Hin as (t & Ht & Hin).
        apply filter_In in Hin as [Hin _]. rewrite <- Ht. now apply in_map.
  - intros Hfind. unfold get_xtream_user_info. run_method. now rewrite Hfind.
Qed.

Lemma user_info_counts_the_playlist_witness :
  exists info,
    get_xtream_user_info demo_datetime "2026-11-04 12:00:00" "demo" [] []
      (mkInst (with_users (users default_db) 2 three_streams_db) false)
    = Returned info (mkInst (with_users (users default_db) 2 three_streams_db) false)
    /\ json_field "total_streams" info = Some (XtreamCodesServer.JInt 3).
Proof.
  destruct (user_info_counts_the_playlist demo_datetime "2026-11-04 12:00:00" "demo"
              [] [] (with_users (users default_db) 2 three_streams_db)) as [H _].
  - repeat constructor; simpl; intuition discriminate.
  - destruct (H (User.mk 2 "demo" (demo_digest "demo123") (Some "demo@iptv.com")
                   "user" 1 (Some 1) 0 (Some 2592000) None 0 None) eq_refl)
      as (info & H1 & H2 & _).
    exists info. split; [exact H1|exact H2].
Defined.

(** X29.  What [check_user_connections] reports.  For an account it returns
    the number of the account's active sessions and the account's cap,
    where a cap of [NULL] or 0 is reported as 1, so the reported cap is
    never 0; the store is not changed.  For a subscriber id that no account
    has it raises [TypeError], with the lock released.  A session opened
    for another subscriber does not change the count. *)
Theorem check_user_connections_reports (user_id : Z) (db : DB) :
  (forall user,
      find (fun u => User.id u =? user_id) (users db) = Some user ->
      exists cap,
        check_user_connections user_id (mkInst db false)
        = Returned (count_active user_id db, cap) (mkInst db false)
        /\ cap <> 0
        /\ (User.max_connections user = None \/ User.max_connections user = Some 0 ->
            cap = 1)
        /\ (forall n, User.max_connections user = Some n -> n <> 0 -> cap = n))
  /\ (find (fun u => User.id u =? user_id) (users db) = None ->
      check_user_connections user_id (mkInst db false)
      = Raised TypeError (mkInst db false))
  /\ (forall now sid other stream ip ua,
        other <> user_id ->
        count_active user_id (insert_session now sid other stream ip ua db)
        = count_active user_id db).
Proof.
  split; [|split].
  - intros user Hfind. exists (int_or (User.max_connections user) 1).
    split; [|split; [|split]].
    + unfold check_user_connections, select_max_connections. run_method.
      now rewrite Hfind.
    + destruct (User.max_connections user) as [n|]; simpl; [|lia].
      destruct (Z.eqb_spec n 0); lia.
    + intros [-> | ->]; reflexivity.
    + intros n -> Hn. simpl. now destruct (Z.eqb_spec n 0).
  - intros Hfind. unfold check_user_connections, select_max_connections. run_method.
    now rewrite Hfind.
  - intros now sid other stream ip ua Hne. rewrite count_active_insert.
    destruct (Z.eqb_spec other user_id); [contradiction|lia].
Qed.
